(** * Study voice-channel tracker: record store, session accounting,
      presence transitions, periodic sampling and daily rollover.

    Shallow embedding of [src/bot.js].

    Modelling conventions.
    - The three SQLite tables are finite maps / lists held in one [Store]
      record.  [targets] and [daily_goals] have PRIMARY KEY
      (guild_id, user_id) and are maps keyed by that pair; [todos] is a
      list of rows together with the AUTOINCREMENT counter.
    - INTEGER columns and millisecond timestamps are [Z].  The number given
      to [/settarget] is an IEEE 754 binary64 value and its product by 60 is
      the correctly rounded binary64 product.  REAL columns and the hours
      of [/setgoal] are exact rationals [Q] (rounding of the hour sums is
      not modelled).
    - Everything the handlers ask of Discord (guild cache, member fetch,
      permissions, role positions, whether a kick goes through) is read
      from a [Guild] / [Client] value; everything they do to Discord is
      recorded, in order, as a list of [Event]s.  Message texts are kept as
      constructors carrying the numbers that the source formats into them.
    - Every entry point (timer tick, scheduled job, gateway event, slash
      command) runs to completion on one store: interleaving at [await]
      and failures of the database itself are outside the model. *)

From Stdlib Require Import ZArith QArith List Sorted Lia.
From Stdlib Require Import Floats.SpecFloat.
From stdpp Require Import base gmap strings list fin_maps sorting.

Local Open Scope Z_scope.

(** ** Record store *)

(** Primary key of [targets] and [daily_goals]: (guild_id, user_id). *)
Abbreviation Key := (string * string)%type.

(** Row of [targets] (the key columns live in the map key). *)
Record Target := mkTarget {
  target_seconds : Z;
  accumulated_seconds : Z;
  session_start : option Z
}.

(** Row of [daily_goals]. *)
Record DailyGoal := mkDailyGoal {
  goal_hours : Q;
  achieved_hours : Q;
  dg_session_start : option Z
}.

(** Row of [todos]. *)
Record Todo := mkTodo {
  todo_guild_id : string;
  todo_user_id : string;
  task_id : Z;
  task : string;
  completed : Z
}.

Record Store := mkStore {
  targets : gmap Key Target;
  todos : list Todo;
  todos_seq : Z;              (* sqlite_sequence entry of [todos] *)
  daily_goals : gmap Key DailyGoal
}.

(** The database right after the CREATE TABLE statements. *)
Definition emptyStore : Store :=
  mkStore ∅ [] 0 ∅.

Definition with_targets (st : Store) (t : gmap Key Target) : Store :=
  mkStore t (todos st) (todos_seq st) (daily_goals st).

Definition with_daily_goals (st : Store) (d : gmap Key DailyGoal) : Store :=
  mkStore (targets st) (todos st) (todos_seq st) d.

Definition with_todos (st : Store) (l : list Todo) (seq : Z) : Store :=
  mkStore (targets st) l seq (daily_goals st).

(** *** VC tracker helpers *)

(** INSERT ... ON CONFLICT DO UPDATE: both arms leave the same row. *)
Definition setTarget (guildId userId : string) (seconds : Z) (st : Store) : Store :=
  with_targets st (<[(guildId, userId) := mkTarget seconds 0 None]> (targets st)).

Definition clearTarget (guildId userId : string) (st : Store) : Store :=
  with_targets st (delete (guildId, userId) (targets st)).

Definition getTarget (guildId userId : string) (st : Store) : option Target :=
  targets st !! (guildId, userId).

Definition setSessionStart (guildId userId : string) (ts : Z) (st : Store) : Store :=
  with_targets st
    (alter (fun r => mkTarget (target_seconds r) (accumulated_seconds r) (Some ts))
           (guildId, userId) (targets st)).

(** SET accumulated_seconds = accumulated_seconds + ?, session_start = NULL *)
Definition foldSession (addSeconds : Z) (r : Target) : Target :=
  mkTarget (target_seconds r) (accumulated_seconds r + addSeconds) None.

Definition addAccumulated (guildId userId : string) (addSeconds : Z) (st : Store) : Store :=
  with_targets st (alter (foldSession addSeconds) (guildId, userId) (targets st)).

Definition getAllActiveSessions (st : Store) : list (Key * Target) :=
  map_to_list (filter (fun kr : Key * Target => is_Some (session_start kr.2)) (targets st)).

(** *** To-do helpers *)

Definition addTodo (guildId userId : string) (text : string) (st : Store) : Store :=
  let id := todos_seq st + 1 in
  with_todos st (todos st ++ [mkTodo guildId userId id text 0]) id.

Definition todo_owned (guildId userId : string) (t : Todo) : bool :=
  String.eqb (todo_guild_id t) guildId && String.eqb (todo_user_id t) userId.

Definition getTodos (guildId userId : string) (st : Store) : list Todo :=
  List.filter (todo_owned guildId userId) (todos st).

Definition completeTodo (guildId userId : string) (taskId : Z) (st : Store) : Store :=
  with_todos st
    (List.map (fun t => if todo_owned guildId userId t && (task_id t =? taskId)
                        then mkTodo (todo_guild_id t) (todo_user_id t) (task_id t) (task t) 1
                        else t) (todos st))
    (todos_seq st).

Definition deleteTodo (guildId userId : string) (taskId : Z) (st : Store) : Store :=
  with_todos st
    (List.filter (fun t => negb (todo_owned guildId userId t && (task_id t =? taskId))) (todos st))
    (todos_seq st).

(** *** Daily goal helpers *)

Definition setDailyGoal (guildId userId : string) (hours : Q) (st : Store) : Store :=
  with_daily_goals st (<[(guildId, userId) := mkDailyGoal hours 0 None]> (daily_goals st)).

Definition getDailyGoal (guildId userId : string) (st : Store) : option DailyGoal :=
  daily_goals st !! (guildId, userId).

(** SET achieved_hours = achieved_hours + ? *)
Definition creditHours (addHours : Q) (d : DailyGoal) : DailyGoal :=
  mkDailyGoal (goal_hours d) (achieved_hours d + addHours)%Q (dg_session_start d).

Definition addAchievedHours (guildId userId : string) (addHours : Q) (st : Store) : Store :=
  with_daily_goals st (alter (creditHours addHours) (guildId, userId) (daily_goals st)).

Definition getAllDailyGoals (st : Store) : list (Key * DailyGoal) :=
  map_to_list (daily_goals st).

Definition clearDailyGoals (st : Store) : Store :=
  with_daily_goals st ∅.

(** ** JavaScript numbers *)

(** A JavaScript number is a binary64 value: [spec_float] at precision 53
    and maximal exponent 1024, with the correctly rounded operations of
    [SpecFloat]. *)

(** [x * y]. *)
Definition js_mul (x y : spec_float) : spec_float := SFmul 53 1024 x y.

(** [x <= y] and [x < y]; both are false when an operand is NaN. *)
Definition js_leb (x y : spec_float) : bool := SFleb x y.
Definition js_ltb (x y : spec_float) : bool := SFltb x y.

(** An integer literal such as [0] or [60]. *)
Definition js_of_Z (n : Z) : spec_float := binary_normalize 53 1024 n 0 false.

(** The number nearest to n/d, which is what a decimal literal with that
    value denotes when n and d are themselves binary64 integers
    (7/10 for 0.7). *)
Definition js_decimal (n : Z) (d : positive) : spec_float :=
  SFdiv 53 1024 (js_of_Z n) (js_of_Z (Zpos d)).

(** [Math.floor(x)] as an integer; [None] when the result is NaN or
    infinite. *)
Definition Math_floor (x : spec_float) : option Z :=
  match x with
  | S754_zero _ => Some 0
  | S754_finite s m e => Some (Z.shiftl (if s then Zneg m else Zpos m) e)
  | S754_infinity _ | S754_nan => None
  end.

(** The values a NUMBER option of a slash command can carry: a binary64
    number, neither NaN nor infinite, of magnitude at most 2^53. *)
Definition discord_number (x : spec_float) : bool :=
  match x with
  | S754_zero _ => true
  | S754_finite _ m e =>
      bounded 53 1024 m e && SFleb (S754_finite false m e) (js_of_Z (2 ^ 53))
  | S754_infinity _ | S754_nan => false
  end.

Record DiscordNumber := mkDiscordNumber {
  dn_value : spec_float;
  dn_ok : discord_number dn_value = true
}.

#[global] Arguments js_mul : simpl never.
#[global] Arguments js_leb : simpl never.
#[global] Arguments js_ltb : simpl never.
#[global] Arguments js_of_Z : simpl never.
#[global] Arguments Math_floor : simpl never.

(** ** The Discord side *)

Record Channel := mkChannel {
  channel_id : string;
  isTextBased : bool;
  me_can_SendMessages : bool     (* c.permissionsFor(botMember).has("SendMessages") *)
}.

Record GuildMember := mkGuildMember {
  roles_highest_position : Z;
  kick_succeeds : bool           (* whether member.kick(...) resolves *)
}.

Record Guild := mkGuild {
  guild_id : string;
  guild_name : string;
  members_fetch : string -> option GuildMember;   (* fetch(...).catch(() => null) *)
  me_has_KickMembers : bool;
  me_roles_highest_position : Z;
  systemChannel : option Channel;
  channels_cache : list Channel
}.

(** [client.guilds.cache.get]. *)
Definition Client := string -> option Guild.

Inductive Message :=
| CongratsTargetHours (targetSeconds : Z)         (* sampler: target_seconds / 3600 *)
| CongratsTarget                                  (* leave: target reached *)
| LeftEarlyNoPermission (userId : string)
| LeftEarlyHierarchy
| KickReasonLeftEarly (accumulated target : Z)    (* accumulated / 3600, target / 3600 *)
| KickedLeftEarly (accumulated target : Z)
| KickReasonDailyGoal (achieved goal : Q)
| KickedDailyGoal (guildName : string) (achieved goal : Q)
| OnlyInServers
| PositiveMinutes
| TargetSet (minutes : spec_float)
| TargetCleared
| TaskAdded (text : string)
| NoTasks
| TaskList (rows : list Todo)
| TaskDone (id : Z)
| TaskDeleted (id : Z)
| PositiveHours
| GoalSet (hours : Q).

Inductive Event :=
| Send (guildId userId : string) (m : Message)          (* member.send *)
| Kick (guildId userId : string) (reason : Message)     (* member.kick *)
| ChannelSend (guildId channelId : string) (m : Message)
| Reply (m : Message) (ephemeral : bool)
| ConsoleLog
| ConsoleError.

(** ** Session accounting *)

(** JavaScript coerces [null] to 0 in arithmetic. *)
Definition js_number (o : option Z) : Z := default 0 o.

(** Truthiness of a nullable INTEGER: neither [null] nor 0. *)
Definition js_truthy (o : option Z) : bool :=
  match o with Some z => negb (z =? 0) | None => false end.

(** Truthiness of a channel id: neither [null] nor the empty string. *)
Definition channel_present (c : option string) : bool :=
  match c with Some EmptyString => false | Some _ => true | None => false end.

(** [Math.floor((now - start) / 1000)]. *)
Definition elapsedSeconds (now start : Z) : Z := (now - start) / 1000.

(** [elapsed / 3600]. *)
Definition hoursOf (elapsed : Z) : Q := (elapsed # 3600)%Q.

(** [a < b] on REAL columns. *)
Definition Qltb (a b : Q) : bool := (Qnum a * QDen b <? Qnum b * QDen a)%Z.

(** ** Periodic check (the [setInterval] callback) *)

(** One iteration of [for (const s of sessions)].  [s] is a row of the
    snapshot taken at the start of the tick; the store is the live one. *)
Definition periodicCheck_row (client : Client) (now : Z)
    (acc : Store * list Event) (s : Key * Target) : Store * list Event :=
  let '(st, evs) := acc in
  let '((guildId, userId), row) := s in
  let elapsed := elapsedSeconds now (js_number (session_start row)) in
  let total := accumulated_seconds row + elapsed in
  let st1 :=
    match getDailyGoal guildId userId st with
    | Some _ => addAchievedHours guildId userId (hoursOf elapsed) st
    | None => st
    end in
  if total >=? target_seconds row then
    match client guildId with
    | None => (st1, evs)                                   (* continue *)
    | Some guild =>
        let evs1 :=
          match members_fetch guild userId with
          | Some _ => evs ++ [Send guildId userId (CongratsTargetHours (target_seconds row))]
          | None => evs
          end in
        (clearTarget guildId userId st1, evs1)
    end
  else (st1, evs).

Definition periodicCheck (client : Client) (now : Z) (st : Store) : Store * list Event :=
  fold_left (periodicCheck_row client now) (getAllActiveSessions st) (st, []).

(** ** Daily reset (the scheduled job) *)

Definition dailyReset_row (client : Client) (evs : list Event)
    (g : Key * DailyGoal) : list Event :=
  let '((guildId, userId), row) := g in
  if Qltb (achieved_hours row) (goal_hours row) then
    match client guildId with
    | None => evs                                          (* continue *)
    | Some guild =>
        match members_fetch guild userId with
        | Some _ =>
            evs ++ [Kick guildId userId (KickReasonDailyGoal (achieved_hours row) (goal_hours row));
                    Send guildId userId
                      (KickedDailyGoal (guild_name guild) (achieved_hours row) (goal_hours row))]
        | None => evs
        end
    end
  else evs.

Definition dailyReset (client : Client) (st : Store) : Store * list Event :=
  let evs := fold_left (dailyReset_row client) (getAllDailyGoals st) [] in
  let st1 := clearDailyGoals st in
  let st2 := with_todos st1 [] (todos_seq st1) in          (* DELETE FROM todos *)
  (st2, evs ++ [ConsoleLog]).

(** ** Voice state update *)

(** [systemChannel ?? channels.cache.find(...)]. *)
Definition announceChannel (guild : Guild) : option Channel :=
  match systemChannel guild with
  | Some c => Some c
  | None => List.find (fun c => isTextBased c && me_can_SendMessages c) (channels_cache guild)
  end.

(** The tail of the leave branch: re-read the target, then congratulate
    or enforce. *)
Definition leaveCheck (guild : Guild) (userId : string) (st : Store) : Store * list Event :=
  let guildId := guild_id guild in
  match getTarget guildId userId st with
  | None => (st, [])
  | Some updated =>
      if accumulated_seconds updated >=? target_seconds updated then
        (clearTarget guildId userId st,
         match members_fetch guild userId with
         | Some _ => [Send guildId userId CongratsTarget]
         | None => []
         end)
      else
        match members_fetch guild userId with
        | None => (st, [])
        | Some member =>
            if negb (me_has_KickMembers guild) then
              (st,
               match announceChannel guild with
               | Some c => [ChannelSend guildId (channel_id c) (LeftEarlyNoPermission userId)]
               | None => []
               end)
            else if roles_highest_position member >=? me_roles_highest_position guild then
              (st, [Send guildId userId LeftEarlyHierarchy])
            else
              let reason :=
                KickReasonLeftEarly (accumulated_seconds updated) (target_seconds updated) in
              if kick_succeeds member then
                (clearTarget guildId userId st,
                 [Kick guildId userId reason;
                  Send guildId userId
                    (KickedLeftEarly (accumulated_seconds updated) (target_seconds updated))])
              else
                (st, [Kick guildId userId reason; ConsoleError])
      end
  end.

(** Elapsed seconds of the session recorded in [row], as the leave branch
    computes them. *)
Definition leaveElapsed (now : Z) (row : Target) : Z :=
  if js_truthy (session_start row)
  then elapsedSeconds now (js_number (session_start row))
  else 0.

(** The head of the leave branch: bank the session on the target, then
    credit the daily goal if there is one. *)
Definition leaveAccount (now : Z) (guildId userId : string) (row : Target)
    (st : Store) : Store :=
  let elapsed := leaveElapsed now row in
  let st2 := addAccumulated guildId userId elapsed st in
  match getDailyGoal guildId userId st2 with
  | Some _ => addAchievedHours guildId userId (hoursOf elapsed) st2
  | None => st2
  end.

Definition voiceStateUpdate (now : Z) (isBot : bool) (guild : Guild) (userId : string)
    (oldChannelId newChannelId : option string) (st : Store) : Store * list Event :=
  if isBot then (st, []) else
  let guildId := guild_id guild in
  match getTarget guildId userId st with
  | None => (st, [])
  | Some row =>
      let st1 :=
        if negb (channel_present oldChannelId) && channel_present newChannelId
        then setSessionStart guildId userId now st
        else st in
      if channel_present oldChannelId && negb (channel_present newChannelId) then
        leaveCheck guild userId (leaveAccount now guildId userId row st1)
      else (st1, [])
  end.

(** ** Slash commands *)

Inductive Command :=
| settarget (minutes : DiscordNumber)
| cleartarget
| addtodo (text : string)
| listtodos
| donetodo (id : Z)
| deltodo (id : Z)
| setgoal (hours : Q).

(** [hours <= 0]. *)
Definition Qnonpos (x : Q) : bool := (Qnum x <=? 0)%Z.

(** [guild] is [interaction.guild] (its id), absent in direct messages. *)
Definition interactionCreate (guild : option string) (userId : string) (c : Command)
    (st : Store) : Store * list Event :=
  match guild with
  | None => (st, [Reply OnlyInServers true])
  | Some guildId =>
      match c with
      | settarget minutes =>
          if js_leb (dn_value minutes) (js_of_Z 0)
          then (st, [Reply PositiveMinutes true])
          else
            match Math_floor (js_mul (dn_value minutes) (js_of_Z 60)) with
            | Some seconds =>
                (setTarget guildId userId seconds st,
                 [Reply (TargetSet (dn_value minutes)) false])
            | None => (st, [])     (* NaN or infinite: no Discord number gives it *)
            end
      | cleartarget => (clearTarget guildId userId st, [Reply TargetCleared true])
      | addtodo text => (addTodo guildId userId text st, [Reply (TaskAdded text) true])
      | listtodos =>
          match getTodos guildId userId st with
          | [] => (st, [Reply NoTasks true])
          | rows => (st, [Reply (TaskList rows) true])
          end
      | donetodo id => (completeTodo guildId userId id st, [Reply (TaskDone id) true])
      | deltodo id => (deleteTodo guildId userId id st, [Reply (TaskDeleted id) true])
      | setgoal hours =>
          if Qnonpos hours then (st, [Reply PositiveHours true])
          else (setDailyGoal guildId userId hours st, [Reply (GoalSet hours) true])
      end
  end.

(** ** Entry points as one transition system *)

Inductive Op :=
| OpVoice (now : Z) (isBot : bool) (guild : Guild) (userId : string)
          (oldChannelId newChannelId : option string)
| OpTick (client : Client) (now : Z)
| OpReset (client : Client)
| OpCommand (guild : option string) (userId : string) (c : Command).

Definition runOp (o : Op) (st : Store) : Store * list Event :=
  match o with
  | OpVoice now isBot guild userId old new => voiceStateUpdate now isBot guild userId old new st
  | OpTick client now => periodicCheck client now st
  | OpReset client => dailyReset client st
  | OpCommand guild userId c => interactionCreate guild userId c st
  end.

Fixpoint runOps (ops : list Op) (st : Store) : Store * list Event :=
  match ops with
  | [] => (st, [])
  | o :: rest =>
      let '(st1, evs1) := runOp o st in
      let '(st2, evs2) := runOps rest st1 in
      (st2, evs1 ++ evs2)
  end.

(** Presence transitions and sampler ticks only. *)
Definition presence_or_tick (o : Op) : bool :=
  match o with OpVoice _ _ _ _ _ _ | OpTick _ _ => true | _ => false end.

(** ** Vocabulary of the statements *)

(** What the sampler computes from a snapshot row. *)
Definition rowElapsed (now : Z) (row : Target) : Z :=
  elapsedSeconds now (js_number (session_start row)).

Definition projectedTotal (now : Z) (row : Target) : Z :=
  accumulated_seconds row + rowElapsed now row.

(** The sampler reaches [clearTarget] for this snapshot row. *)
Definition rowCleared (client : Client) (now : Z) (k : Key) (row : Target) : bool :=
  (projectedTotal now row >=? target_seconds row) && bool_decide (is_Some (client k.1)).

Definition is_open (row : Target) : bool := bool_decide (is_Some (session_start row)).

(** The messages one tick sends for a snapshot row. *)
Definition rowCongrats (client : Client) (now : Z) (k : Key) (row : Target) : list Event :=
  if projectedTotal now row >=? target_seconds row then
    match client k.1 with
    | Some guild =>
        match members_fetch guild k.2 with
        | Some _ => [Send k.1 k.2 (CongratsTargetHours (target_seconds row))]
        | None => []
        end
    | None => []
    end
  else [].

(** The kick and the notice the daily reset issues for one goal row. *)
Definition rowPenalty (client : Client) (k : Key) (row : DailyGoal) : list Event :=
  if Qltb (achieved_hours row) (goal_hours row) then
    match client k.1 with
    | Some guild =>
        match members_fetch guild k.2 with
        | Some _ =>
            [Kick k.1 k.2 (KickReasonDailyGoal (achieved_hours row) (goal_hours row));
             Send k.1 k.2 (KickedDailyGoal (guild_name guild) (achieved_hours row) (goal_hours row))]
        | None => []
        end
    | None => []
    end
  else [].



(** The one operation that replaces a target row outright. *)
Definition is_settarget (o : Op) : bool :=
  match o with OpCommand _ _ (settarget _) => true | _ => false end.

(** At a presence transition the clock is not behind the recorded
    session start. *)
Definition clock_ok (o : Op) (st : Store) : Prop :=
  match o with
  | OpVoice now _ guild userId _ _ =>
      forall row s, getTarget (guild_id guild) userId st = Some row ->
                    session_start row = Some s -> s <= now
  | _ => True
  end.

(** No daily-goal row carries a session start. *)
Definition goals_unstarted (st : Store) : Prop :=
  forall k d, daily_goals st !! k = Some d -> dg_session_start d = None.

(** [member.send] to member (g, u). *)
Definition sent_to (g u : string) (e : Event) : bool :=
  match e with
  | Send g' u' _ => String.eqb g g' && String.eqb u u'
  | _ => false
  end.

(** What a presence transition of member (g, u) may emit. *)
Definition presence_event (g u : string) (e : Event) : Prop :=
  match e with
  | Send g' u' _ | Kick g' u' _ => g' = g /\ u' = u
  | ChannelSend g' _ m => g' = g /\ m = LeftEarlyNoPermission u
  | ConsoleError => True
  | _ => False
  end.

Definition is_reply (e : Event) : bool :=
  match e with Reply _ _ => true | _ => false end.

Definition is_setgoal (o : Op) : bool :=
  match o with OpCommand _ _ (setgoal _) => true | _ => false end.

(** Same task: id, owner and text (the [completed] flag may differ). *)
Definition same_task (t t' : Todo) : Prop :=
  task_id t = task_id t' /\ todo_guild_id t = todo_guild_id t'
  /\ todo_user_id t = todo_user_id t' /\ task t = task t'.

(** Ids in the table are strictly increasing, positive and covered by the
    AUTOINCREMENT counter. *)
Definition todos_wf (st : Store) : Prop :=
  StronglySorted Z.lt (map task_id (todos st))
  /\ Forall (fun t => 1 <= task_id t <= todos_seq st) (todos st)
  /\ 0 <= todos_seq st.

(** Rows of a reachable store carry sensible goals. *)
Definition goals_sane (st : Store) : Prop :=
  (forall k r, targets st !! k = Some r -> 0 <= target_seconds r)
  /\ (forall k d, daily_goals st !! k = Some d -> (0 < goal_hours d)%Q).

(** The row update of [completeTodo]. *)
Definition markDone (g u : string) (id : Z) (t : Todo) : Todo :=
  if todo_owned g u t && (task_id t =? id)
  then mkTodo (todo_guild_id t) (todo_user_id t) (task_id t) (task t) 1
  else t.

(** Task [id] of member (g, u). *)
Definition is_task_of (g u : string) (id : Z) (t : Todo) : Prop :=
  todo_guild_id t = g /\ todo_user_id t = u /\ task_id t = id.

(** ** Concrete guilds and stores used in the examples *)

Definition ex_member : GuildMember := mkGuildMember 1 true.

(** Minutes as typed into [/settarget]: 10, 60, 0, 0.7, 4.1,
    0.016666666666666666 and 0.01. *)
Definition min_10 : DiscordNumber := mkDiscordNumber (js_of_Z 10) eq_refl.
Definition min_60 : DiscordNumber := mkDiscordNumber (js_of_Z 60) eq_refl.
Definition min_0 : DiscordNumber := mkDiscordNumber (js_of_Z 0) eq_refl.
Definition min_0_7 : DiscordNumber := mkDiscordNumber (js_decimal 7 10) eq_refl.
Definition min_4_1 : DiscordNumber := mkDiscordNumber (js_decimal 41 10) eq_refl.
Definition min_sixtieth : DiscordNumber :=
  mkDiscordNumber (js_decimal 16666666666666666 1000000000000000000) eq_refl.
Definition min_0_01 : DiscordNumber := mkDiscordNumber (js_decimal 1 100) eq_refl.

Definition ex_general : Channel := mkChannel "general" true true.

Definition ex_guild (canKick : bool) (sys : option Channel) : Guild :=
  mkGuild "g" "Study" (fun u => if String.eqb u "u" then Some ex_member else None)
          canKick 5 sys [].

Definition ex_client : Client :=
  fun g => if String.eqb g "g" then Some (ex_guild true None) else None.

Definition no_client : Client := fun _ => None.

(** One target for member "u" of guild "g", and a daily goal beside it. *)
Definition ex_store (tgt banked : Z) (start : option Z) (goal achieved : Q) : Store :=
  mkStore {[ ("g", "u") := mkTarget tgt banked start ]} [] 0
          {[ ("g", "u") := mkDailyGoal goal achieved None ]}.

(** A daily goal and a to-do item, no target. *)
Definition ex_goal_only (goal achieved : Q) : Store :=
  mkStore ∅ [mkTodo "g" "u" 1 "read" 0] 1 {[ ("g", "u") := mkDailyGoal goal achieved None ]}.

(** Two members of one guild, each with a target, a task and a daily goal. *)
Definition ex_two_members (tgt banked : Z) (start : option Z) : Store :=
  mkStore {[ ("g", "u") := mkTarget tgt banked start;
             ("g", "v") := mkTarget 900 30 (Some 2000) ]}
          [mkTodo "g" "u" 1 "read" 0; mkTodo "g" "v" 2 "write" 0] 2
          {[ ("g", "u") := mkDailyGoal 1 0 None;
             ("g", "v") := mkDailyGoal 2 (1 # 2) None ]}.

(** ** Lookup lemmas for the store helpers *)

Section StoreLemmas.
Implicit Types (st : Store) (k : Key) (g u : string).

Lemma targets_clearTarget g u st k :
  targets (clearTarget g u st) !! k =
    if decide ((g, u) = k) then None else targets st !! k.
Proof. unfold clearTarget; simpl. apply lookup_delete. Qed.

Lemma targets_addAccumulated g u n st k :
  targets (addAccumulated g u n st) !! k =
    if decide ((g, u) = k) then foldSession n <$> targets st !! k else targets st !! k.
Proof.
  unfold addAccumulated; simpl. rewrite lookup_alter.
  by case_decide; subst.
Qed.

Lemma targets_setSessionStart g u ts st k :
  targets (setSessionStart g u ts st) !! k =
    if decide ((g, u) = k)
    then (fun r => mkTarget (target_seconds r) (accumulated_seconds r) (Some ts))
           <$> targets st !! k
    else targets st !! k.
Proof.
  unfold setSessionStart; simpl. rewrite lookup_alter.
  by case_decide; subst.
Qed.

Lemma goals_addAchievedHours g u h st k :
  daily_goals (addAchievedHours g u h st) !! k =
    if decide ((g, u) = k) then creditHours h <$> daily_goals st !! k
    else daily_goals st !! k.
Proof.
  unfold addAchievedHours; simpl. rewrite lookup_alter.
  by case_decide; subst.
Qed.

(** "if (dailyGoal) await addAchievedHours(...)" as one map update. *)
Lemma goals_credit_if_exists g u h st k :
  daily_goals (match getDailyGoal g u st with
               | Some _ => addAchievedHours g u h st
               | None => st
               end) !! k =
    if decide ((g, u) = k) then creditHours h <$> daily_goals st !! k
    else daily_goals st !! k.
Proof.
  unfold getDailyGoal.
  destruct (daily_goals st !! (g, u)) eqn:E.
  - apply goals_addAchievedHours.
  - case_decide; [subst k; by rewrite E | done].
Qed.

Lemma targets_credit_if_exists g u h st :
  targets (match getDailyGoal g u st with
           | Some _ => addAchievedHours g u h st
           | None => st
           end) = targets st.
Proof. by destruct (getDailyGoal g u st). Qed.

Lemma todos_credit_if_exists g u h st :
  todos (match getDailyGoal g u st with
         | Some _ => addAchievedHours g u h st
         | None => st
         end) = todos st.
Proof. by destruct (getDailyGoal g u st). Qed.
End StoreLemmas.

(** ** The sampler, row by row *)

Section PeriodicCheck.
Variables (client : Client) (now : Z).
Implicit Types (acc : Store * list Event) (k : Key) (row : Target)
               (l : list (Key * Target)).

Lemma periodicCheck_row_targets acc k row k' :
  targets (periodicCheck_row client now acc (k, row)).1 !! k' =
    if decide (k = k')
    then (if rowCleared client now k row then None else targets acc.1 !! k')
    else targets acc.1 !! k'.
Proof.
  destruct acc as [st evs], k as [g u]. unfold periodicCheck_row, rowCleared.
  fold (rowElapsed now row). fold (projectedTotal now row). simpl.
  destruct (projectedTotal now row >=? target_seconds row); simpl.
  - destruct (client g) as [guild|] eqn:Hg; simpl.
    + rewrite lookup_delete, targets_credit_if_exists.
      by repeat case_decide.
    + rewrite targets_credit_if_exists. by case_decide.
  - rewrite targets_credit_if_exists. by case_decide.
Qed.

Lemma periodicCheck_row_goals acc k row k' :
  daily_goals (periodicCheck_row client now acc (k, row)).1 !! k' =
    if decide (k = k')
    then creditHours (hoursOf (rowElapsed now row)) <$> daily_goals acc.1 !! k'
    else daily_goals acc.1 !! k'.
Proof.
  destruct acc as [st evs], k as [g u]. unfold periodicCheck_row.
  fold (rowElapsed now row). simpl.
  destruct (_ >=? _); [destruct (client g)|]; simpl;
    apply goals_credit_if_exists.
Qed.

Lemma periodicCheck_row_todos acc s :
  todos (periodicCheck_row client now acc s).1 = todos acc.1
  /\ todos_seq (periodicCheck_row client now acc s).1 = todos_seq acc.1.
Proof.
  destruct acc as [st evs], s as [[g u] row]. unfold periodicCheck_row. simpl.
  destruct (_ >=? _); [destruct (client g)|]; simpl;
    by destruct (getDailyGoal g u st).
Qed.

Lemma periodicCheck_row_events acc k row :
  (periodicCheck_row client now acc (k, row)).2 = acc.2 ++ rowCongrats client now k row.
Proof.
  destruct acc as [st evs], k as [g u]. unfold periodicCheck_row, rowCongrats.
  fold (rowElapsed now row). fold (projectedTotal now row). simpl.
  destruct (_ >=? _); [destruct (client g) as [guild|]|]; simpl;
    [destruct (members_fetch guild u)| |]; simpl; by rewrite ?app_nil_r.
Qed.

Lemma fold_targets_other l acc k :
  k ∉ l.*1 ->
  targets (fold_left (periodicCheck_row client now) l acc).1 !! k = targets acc.1 !! k.
Proof.
  revert acc. induction l as [|[k1 r1] l IH]; intros acc Hk; [done|].
  simpl in *. apply not_elem_of_cons in Hk as [Hne Hk].
  rewrite IH by done. rewrite periodicCheck_row_targets.
  by rewrite decide_False by congruence.
Qed.

Lemma fold_targets_at l acc k row :
  NoDup l.*1 -> (k, row) ∈ l ->
  targets (fold_left (periodicCheck_row client now) l acc).1 !! k =
    if rowCleared client now k row then None else targets acc.1 !! k.
Proof.
  revert acc. induction l as [|[k1 r1] l IH]; intros acc Hnd Hin.
  - by apply elem_of_nil in Hin.
  - simpl in *. apply NoDup_cons in Hnd as [Hk1 Hnd].
    apply elem_of_cons in Hin as [Heq|Hin].
    + injection Heq as <- <-.
      rewrite fold_targets_other by done.
      rewrite periodicCheck_row_targets. by rewrite decide_True.
    + assert (k1 <> k) as Hne.
      { intros ->. apply Hk1. apply (list_elem_of_fmap_2 fst) in Hin. done. }
      rewrite IH by done. rewrite periodicCheck_row_targets.
      by rewrite decide_False.
Qed.

Lemma fold_goals_other l acc k :
  k ∉ l.*1 ->
  daily_goals (fold_left (periodicCheck_row client now) l acc).1 !! k
    = daily_goals acc.1 !! k.
Proof.
  revert acc. induction l as [|[k1 r1] l IH]; intros acc Hk; [done|].
  simpl in *. apply not_elem_of_cons in Hk as [Hne Hk].
  rewrite IH by done. rewrite periodicCheck_row_goals.
  by rewrite decide_False by congruence.
Qed.

Lemma fold_goals_at l acc k row :
  NoDup l.*1 -> (k, row) ∈ l ->
  daily_goals (fold_left (periodicCheck_row client now) l acc).1 !! k =
    creditHours (hoursOf (rowElapsed now row)) <$> daily_goals acc.1 !! k.
Proof.
  revert acc. induction l as [|[k1 r1] l IH]; intros acc Hnd Hin.
  - by apply elem_of_nil in Hin.
  - simpl in *. apply NoDup_cons in Hnd as [Hk1 Hnd].
    apply elem_of_cons in Hin as [Heq|Hin].
    + injection Heq as <- <-.
      rewrite fold_goals_other by done.
      rewrite periodicCheck_row_goals. by rewrite decide_True.
    + assert (k1 <> k) as Hne.
      { intros ->. apply Hk1. apply (list_elem_of_fmap_2 fst) in Hin. done. }
      rewrite IH by done. rewrite periodicCheck_row_goals.
      by rewrite decide_False.
Qed.

Lemma fold_todos l acc :
  todos (fold_left (periodicCheck_row client now) l acc).1 = todos acc.1
  /\ todos_seq (fold_left (periodicCheck_row client now) l acc).1 = todos_seq acc.1.
Proof.
  revert acc. induction l as [|s l IH]; intros acc; [done|]. simpl.
  destruct (IH (periodicCheck_row client now acc s)) as [-> ->].
  apply periodicCheck_row_todos.
Qed.

Lemma fold_events l acc :
  (fold_left (periodicCheck_row client now) l acc).2 =
    acc.2 ++ concat (map (fun s => rowCongrats client now s.1 s.2) l).
Proof.
  revert acc. induction l as [|[k r] l IH]; intros acc; simpl.
  - by rewrite app_nil_r.
  - rewrite IH, periodicCheck_row_events. by rewrite <- app_assoc.
Qed.
End PeriodicCheck.

(** ** The sampler, per tick *)

Section Tick.
Variables (client : Client) (now : Z).
Implicit Types (st : Store) (k : Key) (row : Target).

Lemma active_sessions_elem st k row :
  (k, row) ∈ getAllActiveSessions st <->
  targets st !! k = Some row /\ is_Some (session_start row).
Proof.
  unfold getAllActiveSessions.
  rewrite elem_of_map_to_list, map_lookup_filter_Some. done.
Qed.

Lemma active_sessions_NoDup st : NoDup (getAllActiveSessions st).*1.
Proof. apply NoDup_fst_map_to_list. Qed.

Lemma active_sessions_key st k :
  k ∈ (getAllActiveSessions st).*1 <->
  exists row, targets st !! k = Some row /\ is_Some (session_start row).
Proof.
  rewrite list_elem_of_fmap. split.
  - intros [[k' row] [-> Hin]]. exists row. by apply active_sessions_elem.
  - intros [row H]. exists (k, row). split; [done|]. by apply active_sessions_elem.
Qed.

Lemma periodicCheck_targets st k :
  targets (periodicCheck client now st).1 !! k =
    match targets st !! k with
    | Some row => if is_open row && rowCleared client now k row then None else Some row
    | None => None
    end.
Proof.
  unfold periodicCheck.
  destruct (targets st !! k) as [row|] eqn:Hk.
  - unfold is_open. destruct (decide (is_Some (session_start row))) as [Ho|Ho].
    + rewrite bool_decide_eq_true_2 by done. simpl.
      rewrite (fold_targets_at _ _ _ _ _ row); simpl.
      * by rewrite Hk.
      * apply active_sessions_NoDup.
      * by apply active_sessions_elem.
    + rewrite bool_decide_eq_false_2 by done. simpl.
      rewrite fold_targets_other; [done|].
      rewrite active_sessions_key. intros [row' [H1 H2]]. congruence.
  - rewrite fold_targets_other; [done|].
    rewrite active_sessions_key. intros [row' [H1 H2]]. simpl in *. congruence.
Qed.

Lemma periodicCheck_goals st k :
  daily_goals (periodicCheck client now st).1 !! k =
    match targets st !! k with
    | Some row =>
        if is_open row
        then creditHours (hoursOf (rowElapsed now row)) <$> daily_goals st !! k
        else daily_goals st !! k
    | None => daily_goals st !! k
    end.
Proof.
  unfold periodicCheck.
  destruct (targets st !! k) as [row|] eqn:Hk.
  - unfold is_open. destruct (decide (is_Some (session_start row))) as [Ho|Ho].
    + rewrite bool_decide_eq_true_2 by done.
      rewrite (fold_goals_at _ _ _ _ _ row); simpl; [done| |].
      * apply active_sessions_NoDup.
      * by apply active_sessions_elem.
    + rewrite bool_decide_eq_false_2 by done.
      rewrite fold_goals_other; [done|].
      rewrite active_sessions_key. intros [row' [H1 H2]]. congruence.
  - rewrite fold_goals_other; [done|].
    rewrite active_sessions_key. intros [row' [H1 H2]]. simpl in *. congruence.
Qed.

Lemma periodicCheck_todos st :
  todos (periodicCheck client now st).1 = todos st
  /\ todos_seq (periodicCheck client now st).1 = todos_seq st.
Proof. apply fold_todos. Qed.

Lemma periodicCheck_events st e :
  e ∈ (periodicCheck client now st).2 <->
  exists k row, targets st !! k = Some row /\ is_Some (session_start row)
                /\ e ∈ rowCongrats client now k row.
Proof.
  unfold periodicCheck. rewrite fold_events. simpl.
  rewrite list_elem_of_In, in_concat. split.
  - intros [evs [Hevs He]]. apply in_map_iff in Hevs as [[k row] [<- Hin]].
    exists k, row. apply list_elem_of_In, active_sessions_elem in Hin as [? ?].
    by rewrite list_elem_of_In.
  - intros [k [row (Hk & Ho & He)]].
    exists (rowCongrats client now k row). split; [|by apply list_elem_of_In].
    apply in_map_iff. exists (k, row). split; [done|].
    apply list_elem_of_In, active_sessions_elem. done.
Qed.
End Tick.

(** ** The presence handler *)

Section Presence.
Implicit Types (st : Store) (k : Key) (guild : Guild) (u : string).

Lemma leaveCheck_todos_goals guild u st :
  daily_goals (leaveCheck guild u st).1 = daily_goals st
  /\ todos (leaveCheck guild u st).1 = todos st
  /\ todos_seq (leaveCheck guild u st).1 = todos_seq st.
Proof.
  unfold leaveCheck.
  destruct (getTarget _ _ _) as [upd|]; [|done].
  destruct (_ >=? _); [done|].
  destruct (members_fetch guild u) as [m|]; [|done].
  destruct (negb _); [done|].
  destruct (_ >=? _); [done|].
  by destruct (kick_succeeds m).
Qed.

(** [leaveCheck] either leaves the store alone or deletes the one row. *)
Lemma leaveCheck_store guild u st :
  (leaveCheck guild u st).1 = st
  \/ (leaveCheck guild u st).1 = clearTarget (guild_id guild) u st.
Proof.
  unfold leaveCheck.
  destruct (getTarget _ _ _) as [upd|]; [|by left].
  destruct (_ >=? _); [by right|].
  destruct (members_fetch guild u) as [m|]; [|by left].
  destruct (negb _); [by left|].
  destruct (_ >=? _); [by left|].
  destruct (kick_succeeds m); [by right|by left].
Qed.

Lemma leaveAccount_targets now g u row st k :
  targets (leaveAccount now g u row st) !! k =
    if decide ((g, u) = k) then foldSession (leaveElapsed now row) <$> targets st !! k
    else targets st !! k.
Proof.
  unfold leaveAccount. cbv zeta.
  rewrite targets_credit_if_exists. apply targets_addAccumulated.
Qed.

Lemma leaveAccount_goals now g u row st k :
  daily_goals (leaveAccount now g u row st) !! k =
    if decide ((g, u) = k)
    then creditHours (hoursOf (leaveElapsed now row)) <$> daily_goals st !! k
    else daily_goals st !! k.
Proof.
  unfold leaveAccount. cbv zeta.
  rewrite goals_credit_if_exists. done.
Qed.

Lemma leaveAccount_todos now g u row st :
  todos (leaveAccount now g u row st) = todos st
  /\ todos_seq (leaveAccount now g u row st) = todos_seq st.
Proof.
  unfold leaveAccount. cbv zeta.
  by destruct (getDailyGoal _ _ _).
Qed.

(** Without a target row the handler returns before doing anything. *)
Lemma voiceStateUpdate_no_target now isBot guild u old new st :
  getTarget (guild_id guild) u st = None ->
  voiceStateUpdate now isBot guild u old new st = (st, []).
Proof.
  intros H. unfold voiceStateUpdate. rewrite H. by destruct isBot.
Qed.

(** The handler writes [daily_goals] at its own key only. *)
Lemma voiceStateUpdate_goals_other now isBot guild u old new st k :
  k <> (guild_id guild, u) ->
  daily_goals (voiceStateUpdate now isBot guild u old new st).1 !! k
    = daily_goals st !! k.
Proof.
  intros Hne. unfold voiceStateUpdate.
  destruct isBot; [done|].
  destruct (getTarget _ _ _) as [row|]; [|done].
  destruct (channel_present old), (channel_present new); simpl; try done.
  destruct (leaveCheck_todos_goals guild u
              (leaveAccount now (guild_id guild) u row st)) as [-> _].
  rewrite leaveAccount_goals. by rewrite decide_False by congruence.
Qed.

(** The handler writes [targets] at its own key only. *)
Lemma voiceStateUpdate_targets_other now isBot guild u old new st k :
  k <> (guild_id guild, u) ->
  targets (voiceStateUpdate now isBot guild u old new st).1 !! k = targets st !! k.
Proof.
  intros Hne. unfold voiceStateUpdate.
  destruct isBot; [done|].
  destruct (getTarget _ _ _) as [row|]; [|done].
  destruct (channel_present old), (channel_present new); simpl; try done.
  - destruct (leaveCheck_store guild u (leaveAccount now (guild_id guild) u row st))
      as [-> | ->].
    + rewrite leaveAccount_targets. by rewrite decide_False by congruence.
    + rewrite targets_clearTarget, leaveAccount_targets.
      by rewrite !decide_False by congruence.
  - rewrite lookup_alter_ne by congruence. done.
Qed.
End Presence.

(** ** Elapsed time (C1) *)

Lemma elapsedSeconds_nonneg now s : 0 <= elapsedSeconds now s <-> s <= now.
Proof.
  unfold elapsedSeconds. split; intros H.
  - destruct (Z_lt_le_dec now s) as [Hlt|]; [|done].
    assert ((now - s) / 1000 < 0) by (apply Z.div_lt_upper_bound; lia). lia.
  - apply Z.div_pos; lia.
Qed.

Lemma leaveElapsed_open now row s :
  session_start row = Some s -> s <> 0 -> leaveElapsed now row = (now - s) / 1000.
Proof.
  intros Hs Hne. unfold leaveElapsed, js_truthy, js_number, elapsedSeconds.
  rewrite Hs. simpl. by rewrite (proj2 (Z.eqb_neq s 0)).
Qed.

(** C1, as the code has it.  For an open session started at [s], the
    sampler credits the daily goal with floor((now - s) / 1000) seconds and
    projects the same amount onto the banked total; a leave transition
    banks that amount on the target and credits it to the daily goal (a
    session start of 0 is read as absent there and banks 0).  The amount is
    not clamped: it is non-negative exactly when [s <= now]. *)
Theorem elapsed_is_unclamped_floor
    (client : Client) (now s : Z) (guild : Guild) (u : string)
    (old new : option string) (st : Store) (row : Target) :
  targets st !! (guild_id guild, u) = Some row ->
  session_start row = Some s ->
  channel_present old = true -> channel_present new = false ->
  let k := (guild_id guild, u) in
  let e := (now - s) / 1000 in
  (* sampler *)
  projectedTotal now row = accumulated_seconds row + e
  /\ daily_goals (periodicCheck client now st).1 !! k
       = creditHours (hoursOf e) <$> daily_goals st !! k
  (* presence handler *)
  /\ (s <> 0 ->
      voiceStateUpdate now false guild u old new st
        = leaveCheck guild u (leaveAccount now (guild_id guild) u row st)
      /\ targets (leaveAccount now (guild_id guild) u row st) !! k
           = Some (mkTarget (target_seconds row) (accumulated_seconds row + e) None)
      /\ daily_goals (voiceStateUpdate now false guild u old new st).1 !! k
           = creditHours (hoursOf e) <$> daily_goals st !! k)
  /\ (s = 0 -> leaveElapsed now row = 0)
  (* no clamp *)
  /\ (0 <= e <-> s <= now).
Proof.
  intros Hk Hs Hold Hnew k e.
  assert (rowElapsed now row = e) as He.
  { unfold rowElapsed, js_number. by rewrite Hs. }
  split; [unfold projectedTotal; by rewrite He|].
  split.
  { unfold k. rewrite periodicCheck_goals, Hk.
    unfold is_open. rewrite bool_decide_eq_true_2 by (rewrite Hs; eauto).
    by rewrite He. }
  split.
  { intros Hne.
    assert (voiceStateUpdate now false guild u old new st
            = leaveCheck guild u (leaveAccount now (guild_id guild) u row st)) as Hv.
    { unfold voiceStateUpdate, getTarget. cbv zeta. rewrite Hk, Hold, Hnew. done. }
    split; [done|]. split.
    - unfold k. rewrite leaveAccount_targets, decide_True by done. rewrite Hk.
      simpl. unfold foldSession. by rewrite (leaveElapsed_open now row s).
    - rewrite Hv.
      destruct (leaveCheck_todos_goals guild u
                  (leaveAccount now (guild_id guild) u row st)) as [-> _].
      rewrite leaveAccount_goals, decide_True by done.
      by rewrite (leaveElapsed_open now row s). }
  split.
  { intros ->. unfold leaveElapsed. by rewrite Hs. }
  apply elapsedSeconds_nonneg.
Qed.

(** A session that started two seconds ago, sampled and then left. *)
Lemma elapsed_is_unclamped_floor_witness :
  projectedTotal 7000 (mkTarget 600 100 (Some 5000)) = 100 + (7000 - 5000) / 1000
  /\ targets (leaveAccount 7000 "g" "u" (mkTarget 600 100 (Some 5000))
                (ex_store 600 100 (Some 5000) 1 0)) !! ("g", "u")
       = Some (mkTarget 600 (100 + (7000 - 5000) / 1000) None).
Proof.
  pose proof (elapsed_is_unclamped_floor ex_client 7000 5000 (ex_guild true None) "u"
                (Some "vc") None (ex_store 600 100 (Some 5000) 1 0)
                (mkTarget 600 100 (Some 5000))
                eq_refl eq_refl eq_refl eq_refl) as (H1 & _ & H3 & _).
  split; [exact H1|].
  apply H3. discriminate.
Defined.

(** C1 as stated fails: with the clock five seconds behind the session
    start the claim wants 0 applied; the leave transition banks -5 seconds
    and the sampler credits -5/3600 hours. *)
Lemma elapsed_clamp_counterexample :
  let st := ex_store 600 100 (Some 6000) 1 0 in
  let now := 1000 in
  now < 6000
  /\ targets (voiceStateUpdate now false (ex_guild false None) "u" (Some "vc") None st).1
       !! ("g", "u") = Some (mkTarget 600 95 None)
  /\ 95 <> 100 + Z.max 0 ((now - 6000) / 1000)
  /\ daily_goals (periodicCheck no_client now st).1 !! ("g", "u")
       = Some (mkDailyGoal 1 (0 + (-5 # 3600)) None)
  /\ ~ (0 + (-5 # 3600) == 0 + hoursOf (Z.max 0 ((now - 6000) / 1000)))%Q.
Proof.
  cbv zeta. split; [lia|]. split; [reflexivity|]. split; [discriminate|].
  split; [reflexivity|]. discriminate.
Qed.

(** ** Repeated sampling of one session (C2) *)

Lemma runOps_cons_store o rest st :
  (runOps (o :: rest) st).1 = (runOps rest (runOp o st).1).1.
Proof.
  simpl. destruct (runOp o st) as [st1 evs1]. simpl.
  by destruct (runOps rest st1).
Qed.



Lemma runOps_app_store l1 l2 st :
  (runOps (l1 ++ l2) st).1 = (runOps l2 (runOps l1 st).1).1.
Proof.
  revert st. induction l1 as [|o l1 IH]; intros st; [done|].
  rewrite <- app_comm_cons, !runOps_cons_store. apply IH.
Qed.

(** A tick credits the whole elapsed time of an open session to the daily
    goal; unless it clears the row, it leaves the row as it is. *)
Lemma tick_open_session client t st k row :
  targets st !! k = Some row -> is_Some (session_start row) ->
  daily_goals (periodicCheck client t st).1 !! k
    = creditHours (hoursOf (rowElapsed t row)) <$> daily_goals st !! k
  /\ (rowCleared client t k row = false ->
      targets (periodicCheck client t st).1 !! k = Some row).
Proof.
  intros Hk Ho. rewrite periodicCheck_targets, periodicCheck_goals, Hk.
  unfold is_open. rewrite bool_decide_eq_true_2 by done.
  split; [done|]. by intros ->.
Qed.







(** ** Leaving before the target is reached (C3) *)

Lemma leaveCheck_not_reached guild u st upd :
  getTarget (guild_id guild) u st = Some upd ->
  accumulated_seconds upd < target_seconds upd ->
  leaveCheck guild u st =
    match members_fetch guild u with
    | None => (st, [])
    | Some member =>
        if negb (me_has_KickMembers guild) then
          (st, match announceChannel guild with
               | Some c => [ChannelSend (guild_id guild) (channel_id c)
                              (LeftEarlyNoPermission u)]
               | None => []
               end)
        else if roles_highest_position member >=? me_roles_highest_position guild then
          (st, [Send (guild_id guild) u LeftEarlyHierarchy])
        else if kick_succeeds member then
          (clearTarget (guild_id guild) u st,
           [Kick (guild_id guild) u
              (KickReasonLeftEarly (accumulated_seconds upd) (target_seconds upd));
            Send (guild_id guild) u
              (KickedLeftEarly (accumulated_seconds upd) (target_seconds upd))])
        else
          (st, [Kick (guild_id guild) u
                  (KickReasonLeftEarly (accumulated_seconds upd) (target_seconds upd));
                ConsoleError])
    end.
Proof.
  intros Hk Hlt. unfold leaveCheck. cbv zeta. rewrite Hk.
  rewrite Z.geb_leb, (proj2 (Z.leb_gt _ _)) by lia. done.
Qed.

(** C3, as the code has it.  On a leave transition that leaves the banked
    total below the target: a kick is attempted exactly when the member
    can be fetched, the agent holds the kick permission and the member's
    highest role is strictly below the agent's.  If the kick goes through,
    its reason and the notice to the member both carry banked/target and
    the target row is deleted; if it throws, the error is logged and the
    row stays.  Without the permission the row stays and a notice goes to
    the fallback channel when there is one; when the hierarchy blocks, the
    row stays and the member is told; when the member cannot be fetched
    nothing happens at all. *)
Theorem early_leave_enforcement
    (now : Z) (guild : Guild) (u : string) (old new : option string)
    (st : Store) (row : Target) :
  getTarget (guild_id guild) u st = Some row ->
  channel_present old = true -> channel_present new = false ->
  let g := guild_id guild in
  let banked := accumulated_seconds row + leaveElapsed now row in
  let tgt := target_seconds row in
  banked < tgt ->
  let st3 := leaveAccount now g u row st in
  let res := voiceStateUpdate now false guild u old new st in
  let reason := KickReasonLeftEarly banked tgt in
  targets st3 !! (g, u) = Some (mkTarget tgt banked None)
  /\ ((exists r, Kick g u r ∈ res.2) <->
      (exists m, members_fetch guild u = Some m
                 /\ me_has_KickMembers guild = true
                 /\ roles_highest_position m < me_roles_highest_position guild))
  /\ (forall m, members_fetch guild u = Some m ->
        me_has_KickMembers guild = true ->
        roles_highest_position m < me_roles_highest_position guild ->
        (kick_succeeds m = true ->
           res = (clearTarget g u st3,
                  [Kick g u reason; Send g u (KickedLeftEarly banked tgt)]))
        /\ (kick_succeeds m = false ->
           res = (st3, [Kick g u reason; ConsoleError])))
  /\ (forall m, members_fetch guild u = Some m ->
        me_has_KickMembers guild = false ->
        res = (st3, match announceChannel guild with
                    | Some c => [ChannelSend g (channel_id c) (LeftEarlyNoPermission u)]
                    | None => []
                    end))
  /\ (forall m, members_fetch guild u = Some m ->
        me_has_KickMembers guild = true ->
        me_roles_highest_position guild <= roles_highest_position m ->
        res = (st3, [Send g u LeftEarlyHierarchy]))
  /\ (members_fetch guild u = None -> res = (st3, [])).
Proof.
  intros Hk Hold Hnew g banked tgt Hlt st3 res reason.
  assert (targets st3 !! (g, u) = Some (mkTarget tgt banked None)) as Hk3.
  { unfold st3. rewrite leaveAccount_targets, decide_True by done.
    unfold getTarget in Hk. fold g in Hk. by rewrite Hk. }
  assert (res =
    match members_fetch guild u with
    | None => (st3, [])
    | Some member =>
        if negb (me_has_KickMembers guild) then
          (st3, match announceChannel guild with
                | Some c => [ChannelSend g (channel_id c) (LeftEarlyNoPermission u)]
                | None => []
                end)
        else if roles_highest_position member >=? me_roles_highest_position guild then
          (st3, [Send g u LeftEarlyHierarchy])
        else if kick_succeeds member then
          (clearTarget g u st3, [Kick g u reason; Send g u (KickedLeftEarly banked tgt)])
        else (st3, [Kick g u reason; ConsoleError])
    end) as Hres.
  { unfold res, voiceStateUpdate. cbv zeta. rewrite Hk, Hold, Hnew. simpl andb. cbv iota.
    fold g st3. by rewrite (leaveCheck_not_reached guild u st3 _ Hk3). }
  split; [done|].
  destruct (members_fetch guild u) as [m|] eqn:Hm.
  2:{ repeat split; try (intros; discriminate); rewrite ?Hres; try done.
      - intros [r Hr]. by apply elem_of_nil in Hr.
      - intros (m & ? & _). discriminate. }
  destruct (me_has_KickMembers guild) eqn:Hperm; simpl in Hres.
  2:{ split.
      { split.
        - intros [r Hr]. rewrite Hres in Hr. simpl in Hr.
          destruct (announceChannel guild); [apply list_elem_of_singleton in Hr|
                                             apply elem_of_nil in Hr]; done.
        - intros (? & _ & ? & _). discriminate. }
      repeat split; try (intros; discriminate); intros; done. }
  destruct (Z_lt_le_dec (roles_highest_position m) (me_roles_highest_position guild))
    as [Hpos|Hpos].
  - rewrite Z.geb_leb, (proj2 (Z.leb_gt _ _)) in Hres by lia.
    split.
    { split; [intros _; eauto|]. intros _. exists reason. rewrite Hres.
      destruct (kick_succeeds m); simpl; apply list_elem_of_here. }
    split.
    { intros m' [= <-] _ _. split; intros Hkick; by rewrite Hkick in Hres. }
    split; [intros; discriminate|]. split; [|intros; discriminate].
    intros m' [= <-] _ ?. lia.
  - rewrite Z.geb_leb, (proj2 (Z.leb_le _ _)) in Hres by lia.
    split.
    { split.
      - intros [r Hr]. rewrite Hres in Hr. simpl in Hr.
        apply list_elem_of_singleton in Hr. discriminate.
      - intros (m' & [= <-] & _ & ?). lia. }
    split; [intros m' [= <-] _ ?; lia|].
    split; [intros; discriminate|]. split; [|intros; discriminate].
    intros; done.
Qed.

(** Target of one hour, member leaves after 1800 s, agent may kick. *)
Lemma early_leave_enforcement_witness :
  voiceStateUpdate 1801000 false (ex_guild true None) "u" (Some "vc") None
                   (ex_store 3600 0 (Some 1000) 1 0)
  = (clearTarget "g" "u"
       (leaveAccount 1801000 "g" "u" (mkTarget 3600 0 (Some 1000))
                     (ex_store 3600 0 (Some 1000) 1 0)),
     [Kick "g" "u" (KickReasonLeftEarly 1800 3600);
      Send "g" "u" (KickedLeftEarly 1800 3600)]).
Proof.
  pose proof (early_leave_enforcement 1801000 (ex_guild true None) "u" (Some "vc") None
                (ex_store 3600 0 (Some 1000) 1 0) (mkTarget 3600 0 (Some 1000))
                eq_refl eq_refl eq_refl eq_refl) as (_ & _ & H & _).
  apply (H ex_member); reflexivity.
Defined.

(** C3 as stated fails where it promises a fallback notice whenever the
    kick permission is missing: in a guild with no system channel and no
    text channel the agent may post in, nothing is posted. *)
Lemma early_leave_notice_counterexample :
  let guild := ex_guild false None in
  let st := ex_store 3600 0 (Some 1000) 1 0 in
  let res := voiceStateUpdate 1801000 false guild "u" (Some "vc") None st in
  me_has_KickMembers guild = false
  /\ members_fetch guild "u" = Some ex_member
  /\ targets res.1 !! ("g", "u") = Some (mkTarget 3600 1800 None)
  /\ res.2 = [].
Proof. cbv zeta. repeat split. Qed.

(** ** Daily rollover (C4) *)

Lemma Qltb_lt a b : Qltb a b = true <-> (a < b)%Q.
Proof. unfold Qltb, Qlt. apply Z.ltb_lt. Qed.

Lemma dailyReset_row_events client evs k row :
  dailyReset_row client evs (k, row) = evs ++ rowPenalty client k row.
Proof.
  destruct k as [g u]. unfold dailyReset_row, rowPenalty. simpl.
  destruct (Qltb _ _); [destruct (client g) as [guild|]|]; simpl;
    [destruct (members_fetch guild u)| |]; simpl; by rewrite ?app_nil_r.
Qed.

Lemma dailyReset_fold_events client l evs :
  fold_left (dailyReset_row client) l evs
    = evs ++ concat (map (fun g => rowPenalty client g.1 g.2) l).
Proof.
  revert evs. induction l as [|[k r] l IH]; intros evs; cbn [fold_left map concat].
  - by rewrite app_nil_r.
  - rewrite IH, dailyReset_row_events. by rewrite <- app_assoc.
Qed.

Lemma dailyReset_events client st e :
  e ∈ (dailyReset client st).2 <->
  e = ConsoleLog
  \/ exists k d, daily_goals st !! k = Some d /\ e ∈ rowPenalty client k d.
Proof.
  unfold dailyReset. cbv zeta. simpl snd.
  rewrite dailyReset_fold_events. simpl.
  rewrite elem_of_app, list_elem_of_singleton, list_elem_of_In, in_concat.
  split.
  - intros [[evs [Hevs He]] | ->]; [right|by left].
    apply in_map_iff in Hevs as [[k d] [<- Hin]].
    exists k, d. apply list_elem_of_In, elem_of_map_to_list in Hin.
    by rewrite list_elem_of_In.
  - intros [-> | (k & d & Hk & He)]; [by right|left].
    exists (rowPenalty client k d). split; [|by apply list_elem_of_In].
    apply in_map_iff. exists (k, d). split; [done|].
    by apply list_elem_of_In, elem_of_map_to_list.
Qed.

(** What [rowPenalty] holds for the row of member (g, u). *)
Lemma rowPenalty_kick client k d g u r :
  Kick g u r ∈ rowPenalty client k d <->
  k = (g, u) /\ (achieved_hours d < goal_hours d)%Q
  /\ r = KickReasonDailyGoal (achieved_hours d) (goal_hours d)
  /\ exists guild, client g = Some guild /\ is_Some (members_fetch guild u).
Proof.
  destruct k as [g' u']. unfold rowPenalty. simpl.
  destruct (Qltb _ _) eqn:Hlt.
  - apply Qltb_lt in Hlt.
    destruct (client g') as [guild|] eqn:Hg.
    + destruct (members_fetch guild u') as [m|] eqn:Hm.
      * rewrite elem_of_cons, list_elem_of_singleton. split.
        -- intros [[= <- <- ->]|?]; [|done]. repeat split; eauto.
        -- intros ([= -> ->] & _ & -> & _). by left.
      * split; [intros H; by apply elem_of_nil in H|].
        intros ([= -> ->] & _ & _ & guild' & Hg' & [m Hm']). congruence.
    + split; [intros H; by apply elem_of_nil in H|].
      intros ([= -> ->] & _ & _ & guild' & Hg' & _). congruence.
  - split; [intros H; by apply elem_of_nil in H|].
    intros (_ & Hq & _). apply Qltb_lt in Hq. congruence.
Qed.

Lemma rowPenalty_send client k d g u m :
  Send g u m ∈ rowPenalty client k d <->
  k = (g, u) /\ (achieved_hours d < goal_hours d)%Q
  /\ exists guild, client g = Some guild /\ is_Some (members_fetch guild u)
       /\ m = KickedDailyGoal (guild_name guild) (achieved_hours d) (goal_hours d).
Proof.
  destruct k as [g' u']. unfold rowPenalty. simpl.
  destruct (Qltb _ _) eqn:Hlt.
  - apply Qltb_lt in Hlt.
    destruct (client g') as [guild|] eqn:Hg.
    + destruct (members_fetch guild u') as [m'|] eqn:Hm.
      * rewrite elem_of_cons, list_elem_of_singleton. split.
        -- intros [?|[= <- <- ->]]; [done|]. repeat split; eauto.
        -- intros ([= -> ->] & _ & guild' & Hg' & _ & ->). right. congruence.
      * split; [intros H; by apply elem_of_nil in H|].
        intros ([= -> ->] & _ & guild' & Hg' & [m' Hm'] & _). congruence.
    + split; [intros H; by apply elem_of_nil in H|].
      intros ([= -> ->] & _ & guild' & Hg' & _). congruence.
  - split; [intros H; by apply elem_of_nil in H|].
    intros (_ & Hq & _). apply Qltb_lt in Hq. congruence.
Qed.

(** C4, as the code has it.  The daily reset attempts a kick, with a
    reason citing achieved/goal, and sends the notice for exactly those
    daily-goal rows with [achieved_hours < goal_hours] whose guild is in
    the agent's cache and whose member can be fetched; rows with
    [achieved_hours >= goal_hours] never trigger either.  Whatever happened
    in that pass, afterwards [daily_goals] and [todos] are empty and
    [targets] is as before. *)
Theorem daily_reset_enforces_then_clears (client : Client) (st : Store) :
  let res := dailyReset client st in
  daily_goals res.1 = ∅ /\ todos res.1 = [] /\ targets res.1 = targets st
  /\ forall g u,
       ((exists r, Kick g u r ∈ res.2) <->
        (exists d guild, daily_goals st !! (g, u) = Some d
           /\ (achieved_hours d < goal_hours d)%Q
           /\ client g = Some guild /\ is_Some (members_fetch guild u)))
       /\ ((exists m, Send g u m ∈ res.2) <->
        (exists d guild, daily_goals st !! (g, u) = Some d
           /\ (achieved_hours d < goal_hours d)%Q
           /\ client g = Some guild /\ is_Some (members_fetch guild u)))
       /\ (forall r, Kick g u r ∈ res.2 ->
             exists d, daily_goals st !! (g, u) = Some d
               /\ r = KickReasonDailyGoal (achieved_hours d) (goal_hours d))
       /\ (forall d, daily_goals st !! (g, u) = Some d ->
             (goal_hours d <= achieved_hours d)%Q ->
             ~ (exists r, Kick g u r ∈ res.2)).
Proof.
  intros res. repeat split; try done.
  - intros [r Hr]. apply dailyReset_events in Hr as [?|(k & d & Hk & He)]; [done|].
    apply rowPenalty_kick in He as (-> & Hlt & _ & guild & Hg & Hm). eauto 10.
  - intros (d & guild & Hk & Hlt & Hg & Hm).
    exists (KickReasonDailyGoal (achieved_hours d) (goal_hours d)).
    apply dailyReset_events. right. exists (g, u), d. split; [done|].
    apply rowPenalty_kick. eauto 10.
  - intros [m Hm]. apply dailyReset_events in Hm as [?|(k & d & Hk & He)]; [done|].
    apply rowPenalty_send in He as (-> & Hlt & guild & Hg & Hf & _). eauto 10.
  - intros (d & guild & Hk & Hlt & Hg & Hm).
    exists (KickedDailyGoal (guild_name guild) (achieved_hours d) (goal_hours d)).
    apply dailyReset_events. right. exists (g, u), d. split; [done|].
    apply rowPenalty_send. eauto 10.
  - intros r Hr. apply dailyReset_events in Hr as [?|(k & d & Hk & He)]; [done|].
    apply rowPenalty_kick in He as (-> & _ & -> & _). eauto.
  - intros d Hd Hge [r Hr].
    apply dailyReset_events in Hr as [?|(k & d' & Hk & He)]; [done|].
    apply rowPenalty_kick in He as (-> & Hlt & _).
    assert (d' = d) as -> by congruence.
    by apply Qlt_not_le in Hlt.
Qed.

(** A member three hours into a five-hour goal, guild cached: kicked with
    the shortfall as reason, then goals and to-dos are gone. *)
Lemma daily_reset_enforces_then_clears_witness :
  daily_goals (dailyReset ex_client (ex_goal_only 5 3)).1 = ∅
  /\ todos (dailyReset ex_client (ex_goal_only 5 3)).1 = []
  /\ exists d, daily_goals (ex_goal_only 5 3) !! ("g", "u") = Some d
       /\ KickReasonDailyGoal 3 5 = KickReasonDailyGoal (achieved_hours d) (goal_hours d).
Proof.
  destruct (daily_reset_enforces_then_clears ex_client (ex_goal_only 5 3))
    as (H1 & H2 & _ & H4).
  split; [exact H1|]. split; [exact H2|].
  destruct (H4 "g" "u") as (_ & _ & H & _).
  destruct (H (KickReasonDailyGoal 3 5)) as (d & Hd & Hr).
  - vm_compute. left.
  - exists d. split; [exact Hd| exact Hr].
Defined.

(** C4 as stated fails for a goal row whose guild is not in the agent's
    cache: 3 < 5 hours, yet the reset attempts no kick and sends nothing
    (and still clears both tables). *)
Lemma daily_reset_uncached_counterexample :
  let st := ex_goal_only 5 3 in
  let res := dailyReset no_client st in
  daily_goals st !! ("g", "u") = Some (mkDailyGoal 5 3 None)
  /\ (3 < 5)%Q
  /\ res.2 = [ConsoleLog]
  /\ daily_goals res.1 = ∅ /\ todos res.1 = [].
Proof. cbv zeta. repeat split. Qed.

(** ** Monotone accumulation (C5) *)

Lemma leaveElapsed_nonneg now row :
  (forall s, session_start row = Some s -> s <= now) -> 0 <= leaveElapsed now row.
Proof.
  intros H. unfold leaveElapsed.
  destruct (session_start row) as [s|]; simpl; [|done].
  destruct (s =? 0); simpl; [done|].
  apply elapsedSeconds_nonneg. by apply H.
Qed.

(** What a presence transition can leave at its own key. *)
Lemma voiceStateUpdate_targets_own now isBot guild u old new st row :
  getTarget (guild_id guild) u st = Some row ->
  let k := (guild_id guild, u) in
  let res := voiceStateUpdate now isBot guild u old new st in
  if negb isBot && channel_present old && negb (channel_present new) then
    targets res.1 !! k = None
    \/ targets res.1 !! k = Some (foldSession (leaveElapsed now row) row)
  else if negb isBot && negb (channel_present old) && channel_present new then
    targets res.1 !! k
      = Some (mkTarget (target_seconds row) (accumulated_seconds row) (Some now))
  else res.1 = st.
Proof.
  intros Hk. cbv zeta. unfold voiceStateUpdate. cbv zeta.
  destruct isBot; [done|]. rewrite Hk. unfold getTarget in Hk.
  destruct (channel_present old), (channel_present new); simpl; try done.
  - destruct (leaveCheck_store guild u (leaveAccount now (guild_id guild) u row st))
      as [-> | ->].
    + right. rewrite leaveAccount_targets, decide_True by done. by rewrite Hk.
    + left. by rewrite targets_clearTarget, decide_True.
  - rewrite lookup_alter_eq. by rewrite Hk.
Qed.

(** A command other than [/settarget] leaves every surviving target row
    as it was. *)
Lemma interactionCreate_targets guild u c st k r' :
  is_settarget (OpCommand guild u c) = false ->
  targets (interactionCreate guild u c st).1 !! k = Some r' ->
  targets st !! k = Some r'.
Proof.
  unfold interactionCreate. destruct guild as [g|]; [|done].
  destruct c as [minutes| |text| |id|id|hours]; simpl; try done.
  - rewrite lookup_delete_Some. by intros _ [_ ?].
  - by destruct (getTodos g u st).
  - by destruct (Qnonpos hours).
Qed.

(** C5, as the code has it.  No operation other than the set-target
    replacement (sampler tick, daily reset, presence transition, any other
    command) lowers a target's [accumulated_seconds] or alters its
    [target_seconds], provided that at a presence transition the clock is
    not behind the recorded session start (elapsed time is not clamped).
    Banking always clears the session start in the same update: that is
    what [addAccumulated] writes, and the row a leave transition leaves
    behind is the old one with the elapsed seconds added and
    [session_start] absent. *)
Theorem accumulated_never_decreases
    (o : Op) (st : Store) (k : Key) (r r' : Target) :
  is_settarget o = false ->
  clock_ok o st ->
  targets st !! k = Some r ->
  targets (runOp o st).1 !! k = Some r' ->
  accumulated_seconds r <= accumulated_seconds r'
  /\ target_seconds r' = target_seconds r
  /\ (accumulated_seconds r' <> accumulated_seconds r -> session_start r' = None)
  /\ (forall now guild u old new,
        o = OpVoice now false guild u old new -> k = (guild_id guild, u) ->
        channel_present old = true -> channel_present new = false ->
        r' = mkTarget (target_seconds r)
                      (accumulated_seconds r + leaveElapsed now r) None)
  /\ (forall g u n st0,
        targets (addAccumulated g u n st0) !! (g, u)
          = (fun x => mkTarget (target_seconds x) (accumulated_seconds x + n) None)
              <$> targets st0 !! (g, u)).
Proof.
  intros Hcmd Hclock Hk Hk'.
  assert (forall g u n st0,
        targets (addAccumulated g u n st0) !! (g, u)
          = (fun x => mkTarget (target_seconds x) (accumulated_seconds x + n) None)
              <$> targets st0 !! (g, u)) as Hadd.
  { intros. by rewrite targets_addAccumulated, decide_True. }
  destruct o as [now isBot guild u old new|client now|client|guild u c];
    cbn [runOp clock_ok] in *.
  - (* presence transition *)
    destruct (decide (k = (guild_id guild, u))) as [->|Hne].
    2:{ rewrite voiceStateUpdate_targets_other in Hk' by done.
        assert (r' = r) as -> by congruence.
        repeat split; try done; try lia; intros; congruence. }
    pose proof (voiceStateUpdate_targets_own now isBot guild u old new st r Hk) as Hown.
    cbv zeta in Hown.
    destruct isBot, (channel_present old) eqn:Hold, (channel_present new) eqn:Hnew;
      cbn [negb andb] in Hown;
      try (rewrite Hown in Hk'; assert (r' = r) as -> by congruence;
           repeat split; try done; try lia; intros; congruence).
    + destruct Hown as [Hown|Hown]; rewrite Hown in Hk'; [done|].
      injection Hk' as <-. cbn [foldSession accumulated_seconds target_seconds session_start].
      pose proof (leaveElapsed_nonneg now r (fun s => Hclock r s Hk)).
      repeat split; try done; try lia.
      intros ? ? ? ? ? [= <- <- <- <- <-] _ _ _. done.
    + rewrite Hown in Hk'. injection Hk' as <-.
      cbn [accumulated_seconds target_seconds session_start].
      repeat split; try done; try lia; intros; congruence.
  - (* sampler tick *)
    rewrite periodicCheck_targets, Hk in Hk'.
    destruct (_ && _); [done|]. injection Hk' as <-.
    repeat split; try done; try lia.
  - (* daily reset *)
    assert (r' = r) as -> by (simpl in Hk'; congruence).
    repeat split; try done; try lia.
  - (* other commands *)
    apply interactionCreate_targets in Hk'; [|done].
    assert (r' = r) as -> by congruence.
    repeat split; try done; try lia.
Qed.

(** A leave two seconds after the join. *)
Lemma accumulated_never_decreases_witness :
  100 <= 102 /\ session_start (mkTarget 600 102 None) = None.
Proof.
  pose proof (accumulated_never_decreases
                (OpVoice 7000 false (ex_guild false None) "u" (Some "vc") None)
                (ex_store 600 100 (Some 5000) 1 0) ("g", "u")
                (mkTarget 600 100 (Some 5000)) (mkTarget 600 102 None)
                eq_refl) as H.
  destruct H as (H1 & _ & H3 & _).
  - intros row s Hrow Hs. vm_compute in Hrow. injection Hrow as <-.
    injection Hs as <-. lia.
  - reflexivity.
  - reflexivity.
  - split; [exact H1|]. apply H3. simpl. lia.
Defined.

(** C5 as stated fails under clock skew: a leave stamped one second before
    the recorded session start lowers the banked total from 100 to 99. *)
Lemma accumulated_decreases_counterexample :
  let st := ex_store 600 100 (Some 5000) 1 0 in
  let o := OpVoice 4000 false (ex_guild false None) "u" (Some "vc") None in
  targets st !! ("g", "u") = Some (mkTarget 600 100 (Some 5000))
  /\ targets (runOp o st).1 !! ("g", "u") = Some (mkTarget 600 99 None)
  /\ 99 < 100.
Proof. cbv zeta. repeat split. Qed.

(** ** What a tick does to a target row (C6) *)

Lemma rowCongrats_send client now k row g u m :
  Send g u m ∈ rowCongrats client now k row <->
  k = (g, u) /\ target_seconds row <= projectedTotal now row
  /\ m = CongratsTargetHours (target_seconds row)
  /\ exists guild, client g = Some guild /\ is_Some (members_fetch guild u).
Proof.
  destruct k as [g' u']. unfold rowCongrats. simpl.
  destruct (_ >=? _) eqn:Hge; rewrite Z.geb_leb in Hge.
  - apply Z.leb_le in Hge.
    destruct (client g') as [guild|] eqn:Hg.
    + destruct (members_fetch guild u') as [m'|] eqn:Hm.
      * rewrite list_elem_of_singleton. split.
        -- intros [= <- <- ->]. repeat split; eauto.
        -- by intros ([= -> ->] & _ & -> & _).
      * split; [intros H; by apply elem_of_nil in H|].
        intros ([= -> ->] & _ & _ & guild' & Hg' & [m' Hm']). congruence.
    + split; [intros H; by apply elem_of_nil in H|].
      intros ([= -> ->] & _ & _ & guild' & Hg' & _). congruence.
  - apply Z.leb_gt in Hge.
    split; [intros H; by apply elem_of_nil in H|]. intros (_ & ? & _). lia.
Qed.

Lemma rowCongrats_only_sends client now k row e :
  e ∈ rowCongrats client now k row -> exists m, e = Send k.1 k.2 m.
Proof.
  unfold rowCongrats.
  destruct (_ >=? _); [|intros H; by apply elem_of_nil in H].
  destruct (client k.1) as [guild|]; [|intros H; by apply elem_of_nil in H].
  destruct (members_fetch guild k.2); [|intros H; by apply elem_of_nil in H].
  intros ->%list_elem_of_singleton. eauto.
Qed.

(** The messages of a tick addressed to member (g, u). *)
Lemma periodicCheck_send client now st g u m :
  Send g u m ∈ (periodicCheck client now st).2 <->
  exists row, targets st !! (g, u) = Some row /\ is_Some (session_start row)
    /\ target_seconds row <= projectedTotal now row
    /\ m = CongratsTargetHours (target_seconds row)
    /\ exists guild, client g = Some guild /\ is_Some (members_fetch guild u).
Proof.
  rewrite periodicCheck_events. split.
  - intros (k & row & Hk & Ho & He).
    apply rowCongrats_send in He as (-> & ? & ? & ?). eauto 10.
  - intros (row & Hk & Ho & Hge & Hm & Hg).
    exists (g, u), row. repeat split; try done. by apply rowCongrats_send.
Qed.

(** C6, as the code has it.  A tick never rewrites a target row: each row
    is afterwards either exactly as before or gone.  Rows without an open
    session stay.  For an open session the row stays when the projected
    total is below the target; when the projected total has reached the
    target and the guild is in the agent's cache the row is deleted, with
    the congratulation sent if and only if the member can be fetched; when
    the guild is not cached the row stays and nothing is sent. *)
Theorem sampler_keeps_or_deletes
    (client : Client) (now : Z) (st : Store) (k : Key) (row : Target) :
  targets st !! k = Some row ->
  let res := periodicCheck client now st in
  (targets res.1 !! k = Some row \/ targets res.1 !! k = None)
  /\ (session_start row = None -> targets res.1 !! k = Some row)
  /\ (is_Some (session_start row) ->
      projectedTotal now row < target_seconds row ->
      targets res.1 !! k = Some row /\ forall m, Send k.1 k.2 m ∉ res.2)
  /\ (is_Some (session_start row) ->
      target_seconds row <= projectedTotal now row ->
      forall guild, client k.1 = Some guild ->
        targets res.1 !! k = None
        /\ (Send k.1 k.2 (CongratsTargetHours (target_seconds row)) ∈ res.2
            <-> is_Some (members_fetch guild k.2)))
  /\ (is_Some (session_start row) ->
      target_seconds row <= projectedTotal now row ->
      client k.1 = None ->
      targets res.1 !! k = Some row /\ forall m, Send k.1 k.2 m ∉ res.2).
Proof.
  intros Hk res. unfold res. destruct k as [g u]. simpl fst. simpl snd.
  rewrite periodicCheck_targets, Hk. unfold is_open, rowCleared. simpl fst.
  split; [destruct (_ && _); eauto|].
  split.
  { intros Hs. rewrite bool_decide_eq_false_2; [done|].
    rewrite Hs. by intros [? ?]. }
  split.
  { intros Ho Hlt. rewrite bool_decide_eq_true_2 by done.
    rewrite Z.geb_leb, (proj2 (Z.leb_gt _ _)) by lia. split; [done|].
    intros m Hm. apply periodicCheck_send in Hm as (row' & Hk' & _ & Hge & _).
    assert (row' = row) as -> by congruence. lia. }
  split.
  { intros Ho Hge guild Hg. rewrite bool_decide_eq_true_2 by done.
    rewrite Z.geb_leb, (proj2 (Z.leb_le _ _)) by lia.
    rewrite bool_decide_eq_true_2 by (rewrite Hg; eauto).
    split; [done|]. rewrite periodicCheck_send. split.
    - intros (row' & _ & _ & _ & _ & guild' & Hg' & Hm). congruence.
    - intros Hm. exists row. eauto 10. }
  intros Ho Hge Hg. rewrite bool_decide_eq_true_2 by done.
  rewrite (bool_decide_eq_false_2 (is_Some (client g))) by (rewrite Hg; by intros [? ?]).
  rewrite andb_false_r. split; [done|].
  intros m Hm. apply periodicCheck_send in Hm as (_ & _ & _ & _ & _ & guild & Hg' & _).
  congruence.
Qed.

(** A ten-minute target sampled 600 s into the session, guild cached. *)
Lemma sampler_keeps_or_deletes_witness :
  targets (periodicCheck ex_client 601000 (ex_store 600 0 (Some 1000) 1 0)).1
    !! ("g", "u") = None
  /\ (Send "g" "u" (CongratsTargetHours 600)
        ∈ (periodicCheck ex_client 601000 (ex_store 600 0 (Some 1000) 1 0)).2
      <-> is_Some (members_fetch (ex_guild true None) "u")).
Proof.
  pose proof (sampler_keeps_or_deletes ex_client 601000
                (ex_store 600 0 (Some 1000) 1 0) ("g", "u")
                (mkTarget 600 0 (Some 1000)) eq_refl) as (_ & _ & _ & H & _).
  apply H.
  - simpl. eauto.
  - vm_compute. discriminate.
  - reflexivity.
Defined.

(** C6 as stated fails when the projected total has reached the target but
    the guild is not in the agent's cache: the row is neither deleted nor is
    the member notified. *)
Lemma sampler_uncached_counterexample :
  let st := ex_store 600 0 (Some 1000) 1 0 in
  let row := mkTarget 600 0 (Some 1000) in
  let res := periodicCheck no_client 601000 st in
  targets st !! ("g", "u") = Some row
  /\ projectedTotal 601000 row >= target_seconds row
  /\ targets res.1 !! ("g", "u") = Some row
  /\ res.2 = [].
Proof. cbv zeta. repeat split. vm_compute. discriminate. Qed.

(** ** Completion check after deletion (C7) *)

(** C7.  Once the target row of a member is gone, the completion check is
    a no-op: the tail of the leave branch and the whole presence handler
    return the store unchanged with no event; the member is not among the
    sessions a tick fetches, and a tick leaves the member without a target
    row, leaves the member's daily goal as it is, sends the member nothing
    and logs no error. *)
Theorem completion_check_idempotent
    (client : Client) (now : Z) (isBot : bool) (guild : Guild) (u : string)
    (old new : option string) (st : Store) :
  getTarget (guild_id guild) u st = None ->
  let g := guild_id guild in
  let tick := periodicCheck client now st in
  leaveCheck guild u st = (st, [])
  /\ voiceStateUpdate now isBot guild u old new st = (st, [])
  /\ ((g, u) ∉ (getAllActiveSessions st).*1)
  /\ targets tick.1 !! (g, u) = None
  /\ daily_goals tick.1 !! (g, u) = daily_goals st !! (g, u)
  /\ (forall m, Send g u m ∉ tick.2)
  /\ ConsoleError ∉ tick.2.
Proof.
  intros Hk g tick. unfold getTarget in Hk. fold g in Hk.
  split; [unfold leaveCheck, getTarget; cbv zeta; fold g; by rewrite Hk|].
  split; [by apply voiceStateUpdate_no_target|].
  split.
  { rewrite active_sessions_key. intros (row & Hrow & _). congruence. }
  split; [unfold tick; by rewrite periodicCheck_targets, Hk|].
  split; [unfold tick; by rewrite periodicCheck_goals, Hk|].
  split.
  - intros m Hm. apply periodicCheck_send in Hm as (row & Hrow & _). congruence.
  - intros He. apply periodicCheck_events in He as (k & row & _ & _ & He).
    apply rowCongrats_only_sends in He as [m Hm]. discriminate.
Qed.

(** A reached target is congratulated and deleted by the first check; the
    second check on the resulting store does nothing. *)
Lemma completion_check_idempotent_witness :
  let st1 := (leaveCheck (ex_guild true None) "u" (ex_store 600 600 None 1 0)).1 in
  (leaveCheck (ex_guild true None) "u" (ex_store 600 600 None 1 0)).2
    = [Send "g" "u" CongratsTarget]
  /\ leaveCheck (ex_guild true None) "u" st1 = (st1, [])
  /\ forall m, Send "g" "u" m ∉ (periodicCheck ex_client 5000 st1).2.
Proof.
  cbv zeta.
  pose proof (completion_check_idempotent ex_client 5000 false (ex_guild true None) "u"
                (Some "vc") None
                (leaveCheck (ex_guild true None) "u" (ex_store 600 600 None 1 0)).1
                eq_refl) as (H1 & _ & _ & _ & _ & H6 & _).
  split; [reflexivity|]. split; [exact H1|exact H6].
Defined.

(** ** Binary64 facts behind [/settarget] *)

Lemma digits2_pos_upper p : Zpos p < 2 ^ Zpos (digits2_pos p).
Proof.
  induction p as [p IH|p IH|]; simpl digits2_pos;
    rewrite ?Pos2Z.inj_succ, ?Z.pow_succ_r by lia; lia.
Qed.

Lemma digits2_pos_lower p : 2 ^ (Zpos (digits2_pos p) - 1) <= Zpos p.
Proof.
  induction p as [p IH|p IH|]; simpl digits2_pos; rewrite ?Pos2Z.inj_succ;
    [replace (Z.succ (Zpos (digits2_pos p)) - 1)
       with (Z.succ (Zpos (digits2_pos p) - 1)) by lia;
     rewrite Z.pow_succ_r by lia; lia..|simpl; lia].
Qed.

Lemma Zdigits2_bound m D : 0 <= D -> 0 <= m < 2 ^ D -> 0 <= Zdigits2 m <= D.
Proof.
  intros HD [H0 Hm]. destruct m as [|p|p]; simpl; [lia| |lia].
  split; [lia|].
  destruct (Z_le_gt_dec (Zpos (digits2_pos p)) D) as [|Hgt]; [done|].
  pose proof (digits2_pos_lower p).
  assert (2 ^ D <= 2 ^ (Zpos (digits2_pos p) - 1)) by (apply Z.pow_le_mono_r; lia).
  lia.
Qed.

Lemma shr_1_ok D r : 0 <= shr_m r < 2 ^ D -> 0 <= shr_m (shr_1 r) < 2 ^ D.
Proof.
  destruct r as [m b s]. simpl.
  intros [H0 Hm]. destruct m as [|[p|p|]|p]; simpl; try lia.
  all: assert (0 < 2 ^ D) by lia; lia.
Qed.

Lemma iter_pos_shr_ok D n r :
  0 <= shr_m r < 2 ^ D -> 0 <= shr_m (SpecFloat.iter_pos shr_1 n r) < 2 ^ D.
Proof.
  revert r. induction n as [n IH|n IH|]; intros r Hr; simpl.
  - apply IH, IH. by apply shr_1_ok.
  - by apply IH, IH.
  - by apply shr_1_ok.
Qed.

Lemma shr_fexp_ok D m e l :
  0 <= D -> 0 <= m < 2 ^ D ->
  0 <= shr_m (shr_fexp 53 1024 m e l).1 < 2 ^ D
  /\ (shr_fexp 53 1024 m e l).2 <= Z.max e (Z.max (D + e - 53) (-1074)).
Proof.
  intros HD Hm. unfold shr_fexp, shr.
  pose proof (Zdigits2_bound m D HD Hm) as Hd.
  assert (0 <= shr_m (shr_record_of_loc m l) < 2 ^ D) as Hr.
  { by destruct l as [|[]]. }
  unfold fexp, emin.
  destruct (Z.max (Zdigits2 m + e - 53) (3 - 1024 - 53) - e) as [|n|n] eqn:Hn; simpl.
  - split; [done|lia].
  - split; [by apply iter_pos_shr_ok|lia].
  - split; [done|lia].
Qed.

Lemma round_nearest_even_ok D m l :
  0 <= D -> 0 <= m < 2 ^ D -> 0 <= round_nearest_even m l < 2 ^ (D + 1).
Proof.
  intros HD Hm. rewrite Z.pow_add_r by lia.
  unfold round_nearest_even. destruct l as [|[]]; try destruct (Z.even m); lia.
Qed.

(** Rounding a mantissa of at most 110 bits at a small exponent neither
    overflows nor yields NaN, and keeps the sign. *)
Lemma binary_round_aux_finite D s m e :
  0 <= D <= 110 -> 0 <= m < 2 ^ D -> e <= 10 ->
  binary_round_aux 53 1024 s m e loc_Exact = S754_zero s
  \/ exists m' e', binary_round_aux 53 1024 s m e loc_Exact = S754_finite s m' e'.
Proof.
  intros HD Hm He. unfold binary_round_aux.
  destruct (shr_fexp_ok D m e loc_Exact ltac:(lia) Hm) as [Hr1 He1].
  destruct (shr_fexp 53 1024 m e loc_Exact) as [mrs' e']. simpl in Hr1, He1.
  pose proof (round_nearest_even_ok D (shr_m mrs') (loc_of_shr_record mrs')
                ltac:(lia) Hr1) as Hrn.
  destruct (shr_fexp_ok (D + 1) (round_nearest_even (shr_m mrs') (loc_of_shr_record mrs'))
              e' loc_Exact ltac:(lia) Hrn) as [Hr2 He2].
  destruct (shr_fexp 53 1024 _ e' loc_Exact) as [mrs'' e'']. simpl in Hr2, He2.
  destruct (shr_m mrs'') as [|p|p]; [by left| |lia].
  right. rewrite (proj2 (Z.leb_le e'' (1024 - 53))) by lia. eauto.
Qed.

Lemma bounded_digits m e : bounded 53 1024 m e = true -> Zpos m < 2 ^ 53.
Proof.
  unfold bounded, canonical_mantissa, fexp, emin.
  intros [Hc _]%andb_prop. apply Z.eqb_eq in Hc.
  pose proof (digits2_pos_upper m).
  assert (2 ^ Zpos (digits2_pos m) <= 2 ^ 53) by (apply Z.pow_le_mono_r; lia).
  lia.
Qed.

Lemma discord_number_exponent s m e :
  discord_number (S754_finite s m e) = true -> Zpos m < 2 ^ 53 /\ e <= 1.
Proof.
  unfold discord_number. intros [Hb Hle]%andb_prop.
  split; [by eapply bounded_digits|].
  change (js_of_Z (2 ^ 53)) with (S754_finite false 4503599627370496 1) in Hle.
  unfold SFleb, SFcompare in Hle.
  destruct (Z.compare_spec e 1); try discriminate; lia.
Qed.

(** The product of a Discord number by 60 is never NaN or infinite. *)
Lemma times_sixty_finite (minutes : DiscordNumber) :
  exists seconds, Math_floor (js_mul (dn_value minutes) (js_of_Z 60)) = Some seconds.
Proof.
  destruct minutes as [x Hx]. cbn [dn_value].
  change (js_of_Z 60) with (S754_finite false 8444249301319680 (-47)).
  destruct x as [s|s| |s m e]; try discriminate.
  - unfold js_mul, Math_floor. simpl. eauto.
  - apply discord_number_exponent in Hx as [Hm He].
    unfold js_mul, SFmul, Math_floor.
    destruct (binary_round_aux_finite 106 (xorb s false)
                (Zpos (m * 8444249301319680)) (e + -47)) as [->|(m' & e' & ->)];
      simpl; eauto; lia.
Qed.

(** The floor of the product of a positive number by 60 is not negative. *)
Lemma positive_times_sixty_nonneg x seconds :
  js_leb x (js_of_Z 0) = false ->
  Math_floor (js_mul x (js_of_Z 60)) = Some seconds -> 0 <= seconds.
Proof.
  change (js_of_Z 60) with (S754_finite false 8444249301319680 (-47)).
  change (js_of_Z 0) with (S754_zero false).
  unfold js_leb, js_mul, Math_floor.
  intros Hx Hf. destruct x as [s|[]| |[] m e]; try discriminate.
  unfold SFmul in Hf. simpl xorb in Hf.
  destruct (binary_round_aux 53 1024 false _ _ _) as [s'|s'| |s' m' e'] eqn:E;
    try discriminate; injection Hf as <-; [done|].
  assert (s' = false) as ->.
  { revert E. unfold binary_round_aux.
    destruct (shr_fexp _ _ _ _ _) as [a b]. destruct (shr_fexp _ _ _ _ _) as [c d].
    destruct (shr_m c); try discriminate. destruct (_ <=? _); congruence. }
  apply Z.shiftl_nonneg. lia.
Qed.

(** A Discord number is either [<= 0] or [> 0], never both. *)
Lemma discord_number_sign (minutes : DiscordNumber) :
  js_leb (dn_value minutes) (js_of_Z 0) = negb (js_ltb (js_of_Z 0) (dn_value minutes)).
Proof.
  destruct minutes as [x Hx]. cbn [dn_value].
  change (js_of_Z 0) with (S754_zero false). unfold js_leb, js_ltb.
  by destruct x as [s|[]| |[] m e].
Qed.

(** ** The set-target command (C8) *)

Lemma Qnonpos_le x : Qnonpos x = true <-> (x <= 0)%Q.
Proof. unfold Qnonpos, Qle. simpl. rewrite Z.leb_le. lia. Qed.

(** C8.  Every minutes value a slash command can carry is either [<= 0]
    or [> 0].  [/settarget minutes] with [minutes <= 0] is answered with
    the rejection and leaves the store as it is; with [minutes > 0] the
    member's target row becomes (floor(minutes * 60), 0, absent), the
    product being the binary64 one, whatever was there before, and nothing
    else in the store changes. *)
Theorem settarget_rejects_or_resets
    (g u : string) (minutes : DiscordNumber) (st : Store) :
  let res := interactionCreate (Some g) u (settarget minutes) st in
  (js_leb (dn_value minutes) (js_of_Z 0) = true
   \/ js_ltb (js_of_Z 0) (dn_value minutes) = true)
  /\ (js_leb (dn_value minutes) (js_of_Z 0) = true ->
      res = (st, [Reply PositiveMinutes true]))
  /\ (js_ltb (js_of_Z 0) (dn_value minutes) = true ->
      exists seconds,
        Math_floor (js_mul (dn_value minutes) (js_of_Z 60)) = Some seconds
        /\ getTarget g u res.1 = Some (mkTarget seconds 0 None)
        /\ (forall k, k <> (g, u) -> targets res.1 !! k = targets st !! k)
        /\ daily_goals res.1 = daily_goals st
        /\ todos res.1 = todos st /\ todos_seq res.1 = todos_seq st
        /\ res.2 = [Reply (TargetSet (dn_value minutes)) false]).
Proof.
  intros res. unfold res. cbn [interactionCreate].
  pose proof (discord_number_sign minutes) as Hsign.
  split; [destruct (js_ltb _ _); [by right|by left]|].
  split.
  - by intros ->.
  - intros Hlt. rewrite Hsign, Hlt. cbn [negb].
    destruct (times_sixty_finite minutes) as [seconds Hs]. rewrite Hs.
    exists seconds. split; [done|].
    unfold getTarget. simpl. rewrite lookup_insert_eq.
    repeat split; try done. intros k Hne. by rewrite lookup_insert_ne.
Qed.

(** 0.7, 4.1 and 0.016666666666666666 minutes give 42, 245 and 1 second;
    0 minutes are rejected. *)
Lemma settarget_rejects_or_resets_witness :
  getTarget "g" "u"
    ((interactionCreate (Some "g") "u" (settarget min_0_7)
                        (ex_store 3600 1800 (Some 1000) 1 0)).1)
    = Some (mkTarget 42 0 None)
  /\ getTarget "g" "u"
       ((interactionCreate (Some "g") "u" (settarget min_4_1) emptyStore).1)
     = Some (mkTarget 245 0 None)
  /\ getTarget "g" "u"
       ((interactionCreate (Some "g") "u" (settarget min_sixtieth) emptyStore).1)
     = Some (mkTarget 1 0 None)
  /\ interactionCreate (Some "g") "u" (settarget min_0) (ex_store 3600 1800 (Some 1000) 1 0)
     = (ex_store 3600 1800 (Some 1000) 1 0, [Reply PositiveMinutes true]).
Proof.
  split; [|split; [|split]].
  - destruct (settarget_rejects_or_resets "g" "u" min_0_7
                (ex_store 3600 1800 (Some 1000) 1 0)) as (_ & _ & H).
    destruct (H eq_refl) as (seconds & Hs & Hk & _).
    vm_compute in Hs. injection Hs as <-. exact Hk.
  - destruct (settarget_rejects_or_resets "g" "u" min_4_1 emptyStore) as (_ & _ & H).
    destruct (H eq_refl) as (seconds & Hs & Hk & _).
    vm_compute in Hs. injection Hs as <-. exact Hk.
  - destruct (settarget_rejects_or_resets "g" "u" min_sixtieth emptyStore) as (_ & _ & H).
    destruct (H eq_refl) as (seconds & Hs & Hk & _).
    vm_compute in Hs. injection Hs as <-. exact Hk.
  - apply (settarget_rejects_or_resets "g" "u" min_0 (ex_store 3600 1800 (Some 1000) 1 0)).
    reflexivity.
Defined.

(** ** Daily goals without a target (C9) *)

Lemma presence_or_tick_step o st k :
  presence_or_tick o = true ->
  targets st !! k = None ->
  targets (runOp o st).1 !! k = None
  /\ daily_goals (runOp o st).1 !! k = daily_goals st !! k.
Proof.
  intros Ho Hk.
  destruct o as [now isBot guild u old new|client now| |]; try discriminate;
    cbn [runOp].
  - destruct (decide (k = (guild_id guild, u))) as [->|Hne].
    + by rewrite voiceStateUpdate_no_target.
    + by rewrite voiceStateUpdate_targets_other, voiceStateUpdate_goals_other.
  - by rewrite periodicCheck_targets, periodicCheck_goals, Hk.
Qed.

(** C9.  For a member with a daily-goal row and no target row, no sequence
    of presence transitions and sampler ticks (of any members) changes the
    goal row, and none of them creates a target row for the member. *)
Theorem goal_untouched_without_target
    (ops : list Op) (st : Store) (k : Key) (d : DailyGoal) :
  forallb presence_or_tick ops = true ->
  daily_goals st !! k = Some d ->
  targets st !! k = None ->
  daily_goals (runOps ops st).1 !! k = Some d
  /\ targets (runOps ops st).1 !! k = None.
Proof.
  revert st. induction ops as [|o ops IH]; intros st Hops Hd Hk; [done|].
  simpl in Hops. apply andb_prop in Hops as [Ho Hops].
  rewrite runOps_cons_store.
  destruct (presence_or_tick_step o st k Ho Hk) as [Hk1 Hd1].
  apply IH; [done| |done]. by rewrite Hd1.
Qed.

(** Join, two ticks and a leave of a member with only a daily goal. *)
Lemma goal_untouched_without_target_witness :
  daily_goals
    (runOps [OpVoice 1000 false (ex_guild true None) "u" None (Some "vc");
             OpTick ex_client 11000; OpTick ex_client 21000;
             OpVoice 25000 false (ex_guild true None) "u" (Some "vc") None]
            (ex_goal_only 5 3)).1 !! ("g", "u")
  = Some (mkDailyGoal 5 3 None).
Proof.
  apply (goal_untouched_without_target _ (ex_goal_only 5 3) ("g", "u")
           (mkDailyGoal 5 3 None)); reflexivity.
Defined.

(** ** The session start of a daily goal (C10) *)

Lemma voiceStateUpdate_goals now isBot guild u old new st k :
  daily_goals (voiceStateUpdate now isBot guild u old new st).1 !! k
    = daily_goals st !! k
  \/ exists h, daily_goals (voiceStateUpdate now isBot guild u old new st).1 !! k
                 = creditHours h <$> daily_goals st !! k.
Proof.
  destruct (decide (k = (guild_id guild, u))) as [->|Hne];
    [|left; by apply voiceStateUpdate_goals_other].
  unfold voiceStateUpdate. cbv zeta.
  destruct isBot; [by left|].
  destruct (getTarget _ _ _) as [row|]; [|by left].
  destruct (channel_present old), (channel_present new); simpl; try by left.
  right. exists (hoursOf (leaveElapsed now row)).
  destruct (leaveCheck_todos_goals guild u
              (leaveAccount now (guild_id guild) u row st)) as [-> _].
  by rewrite leaveAccount_goals, decide_True.
Qed.

Lemma goals_unstarted_step o st :
  goals_unstarted st -> goals_unstarted (runOp o st).1.
Proof.
  intros Hinv k d.
  destruct o as [now isBot guild u old new|client now|client|guild u c]; cbn [runOp].
  - destruct (voiceStateUpdate_goals now isBot guild u old new st k) as [->|[h ->]].
    + apply Hinv.
    + destruct (daily_goals st !! k) as [d0|] eqn:Hd0; [|done].
      intros [= <-]. simpl. by apply (Hinv k).
  - rewrite periodicCheck_goals.
    destruct (targets st !! k) as [row|]; [|apply Hinv].
    destruct (is_open row); [|apply Hinv].
    destruct (daily_goals st !! k) as [d0|] eqn:Hd0; [|done].
    intros [= <-]. simpl. by apply (Hinv k).
  - simpl. by rewrite lookup_empty.
  - unfold interactionCreate. destruct guild as [g|]; [|apply Hinv].
    destruct c as [minutes| |text| |id|id|hours]; simpl; try apply Hinv.
    + destruct (js_leb _ _); [apply Hinv|]. destruct (Math_floor _); apply Hinv.
    + destruct (getTodos g u st); apply Hinv.
    + destruct (Qnonpos hours); [apply Hinv|]. simpl.
      rewrite lookup_insert. case_decide; [by intros [= <-]|apply Hinv].
Qed.

Lemma goals_unstarted_run ops st :
  goals_unstarted st -> goals_unstarted (runOps ops st).1.
Proof.
  revert st. induction ops as [|o ops IH]; intros st Hinv; [done|].
  rewrite runOps_cons_store. by apply IH, goals_unstarted_step.
Qed.

(** C10.  In every store reached from the empty database by any sequence
    of presence transitions, sampler ticks, daily resets and slash
    commands, every daily-goal row has an absent [session_start]. *)
Theorem daily_goal_session_start_absent
    (ops : list Op) (k : Key) (d : DailyGoal) :
  daily_goals (runOps ops emptyStore).1 !! k = Some d ->
  dg_session_start d = None.
Proof.
  apply (goals_unstarted_run ops emptyStore).
  intros k' d'. unfold emptyStore. simpl. by rewrite lookup_empty.
Qed.

(** Goal and target set, then a join, a tick and a leave. *)
Lemma daily_goal_session_start_absent_witness :
  dg_session_start (mkDailyGoal 5 (0 + hoursOf 10 + hoursOf 20) None) = None.
Proof.
  apply (daily_goal_session_start_absent
           [OpCommand (Some "g") "u" (setgoal 5);
            OpCommand (Some "g") "u" (settarget min_60);
            OpVoice 1000 false (ex_guild false None) "u" None (Some "vc");
            OpTick ex_client 11000;
            OpVoice 21000 false (ex_guild false None) "u" (Some "vc") None]
           ("g", "u")).
  vm_compute. reflexivity.
Defined.

(** * Further properties of the code *)

(** ** Joining and leaving *)

Lemma voiceStateUpdate_join now guild u old new st row :
  getTarget (guild_id guild) u st = Some row ->
  channel_present old = false -> channel_present new = true ->
  voiceStateUpdate now false guild u old new st
    = (setSessionStart (guild_id guild) u now st, []).
Proof.
  intros Hk Hold Hnew. unfold voiceStateUpdate. cbv zeta.
  by rewrite Hk, Hold, Hnew.
Qed.

Lemma voiceStateUpdate_leave now guild u old new st row :
  getTarget (guild_id guild) u st = Some row ->
  channel_present old = true -> channel_present new = false ->
  voiceStateUpdate now false guild u old new st
    = leaveCheck guild u (leaveAccount now (guild_id guild) u row st).
Proof.
  intros Hk Hold Hnew. unfold voiceStateUpdate. cbv zeta.
  by rewrite Hk, Hold, Hnew.
Qed.

(** The store right after a join. *)
Lemma joined_store now guild u old new st row :
  getTarget (guild_id guild) u st = Some row ->
  channel_present old = false -> channel_present new = true ->
  let joined := (voiceStateUpdate now false guild u old new st).1 in
  targets joined !! (guild_id guild, u)
    = Some (mkTarget (target_seconds row) (accumulated_seconds row) (Some now))
  /\ (forall k', k' <> (guild_id guild, u) -> targets joined !! k' = targets st !! k')
  /\ daily_goals joined = daily_goals st.
Proof.
  intros Hk Hold Hnew joined. unfold joined.
  rewrite (voiceStateUpdate_join now guild u old new st row) by done.
  cbn [fst]. split.
  { rewrite targets_setSessionStart, decide_True by done.
    unfold getTarget in Hk. by rewrite Hk. }
  split; [|done].
  intros k' Hne. rewrite targets_setSessionStart. by rewrite decide_False.
Qed.

(** Joining a voice channel with a target set stamps the session start
    with the current time, whatever start was recorded before, keeps the
    target and the banked seconds, and touches nothing else: no other row,
    no daily goal, no to-do, no message. *)
Theorem join_starts_session
    (now : Z) (guild : Guild) (u : string) (old new : option string)
    (st : Store) (row : Target) :
  getTarget (guild_id guild) u st = Some row ->
  channel_present old = false -> channel_present new = true ->
  let k := (guild_id guild, u) in
  let res := voiceStateUpdate now false guild u old new st in
  res.2 = []
  /\ targets res.1 !! k
       = Some (mkTarget (target_seconds row) (accumulated_seconds row) (Some now))
  /\ (forall k', k' <> k -> targets res.1 !! k' = targets st !! k')
  /\ daily_goals res.1 = daily_goals st
  /\ todos res.1 = todos st /\ todos_seq res.1 = todos_seq st.
Proof.
  intros Hk Hold Hnew k res. unfold res.
  rewrite (voiceStateUpdate_join now guild u old new st row) by done.
  cbn [fst snd]. split; [done|]. split.
  { rewrite targets_setSessionStart, decide_True by done.
    unfold getTarget in Hk. unfold k. by rewrite Hk. }
  split; [|done].
  intros k' Hne. rewrite targets_setSessionStart. by rewrite decide_False.
Qed.

Lemma join_starts_session_witness :
  targets (voiceStateUpdate 9000 false (ex_guild true None) "u" None (Some "vc")
             (ex_store 600 100 (Some 5000) 1 0)).1 !! ("g", "u")
  = Some (mkTarget 600 100 (Some 9000)).
Proof.
  apply (join_starts_session 9000 (ex_guild true None) "u" None (Some "vc")
           (ex_store 600 100 (Some 5000) 1 0) (mkTarget 600 100 (Some 5000)));
    reflexivity.
Defined.

(** A join at [t0] followed by a leave at [t1] banks floor((t1 - t0)/1000)
    seconds on the target, clears the session start, credits the same
    amount to the daily goal if there is one, and then runs the completion
    check on that store. *)
Theorem join_then_leave_banks_session
    (t0 t1 : Z) (guild : Guild) (u : string) (old0 new0 old1 new1 : option string)
    (st : Store) (row : Target) :
  getTarget (guild_id guild) u st = Some row ->
  channel_present old0 = false -> channel_present new0 = true ->
  channel_present old1 = true -> channel_present new1 = false ->
  t0 <> 0 ->
  let k := (guild_id guild, u) in
  let e := (t1 - t0) / 1000 in
  let joined := (voiceStateUpdate t0 false guild u old0 new0 st).1 in
  exists banked,
    voiceStateUpdate t1 false guild u old1 new1 joined = leaveCheck guild u banked
    /\ targets banked !! k
         = Some (mkTarget (target_seconds row) (accumulated_seconds row + e) None)
    /\ daily_goals banked !! k = creditHours (hoursOf e) <$> daily_goals st !! k
    /\ (forall k', k' <> k ->
          targets banked !! k' = targets st !! k'
          /\ daily_goals banked !! k' = daily_goals st !! k').
Proof.
  intros Hk Hold0 Hnew0 Hold1 Hnew1 Ht0 k e joined.
  destruct (joined_store t0 guild u old0 new0 st row Hk Hold0 Hnew0)
    as (Hj & Hother & Hgoals).
  fold joined k in Hj, Hother, Hgoals.
  set (row1 := mkTarget (target_seconds row) (accumulated_seconds row) (Some t0)) in *.
  exists (leaveAccount t1 (guild_id guild) u row1 joined).
  assert (leaveElapsed t1 row1 = e) as He by (by apply leaveElapsed_open).
  split; [by apply voiceStateUpdate_leave|].
  split.
  { rewrite leaveAccount_targets, decide_True by done. fold k. rewrite Hj.
    simpl. unfold foldSession. by rewrite He. }
  split.
  { rewrite leaveAccount_goals, decide_True by done. by rewrite He, Hgoals. }
  intros k' Hne. rewrite leaveAccount_targets, leaveAccount_goals.
  rewrite !decide_False by done. by rewrite Hother, Hgoals.
Qed.

Lemma join_then_leave_banks_session_witness :
  exists banked,
    voiceStateUpdate 125000 false (ex_guild false None) "u" (Some "vc") None
      (voiceStateUpdate 5000 false (ex_guild false None) "u" None (Some "vc")
         (ex_store 600 100 None 1 0)).1
    = leaveCheck (ex_guild false None) "u" banked
    /\ targets banked !! ("g", "u")
       = Some (mkTarget 600 (100 + (125000 - 5000) / 1000) None).
Proof.
  destruct (join_then_leave_banks_session 5000 125000 (ex_guild false None) "u"
              None (Some "vc") (Some "vc") None (ex_store 600 100 None 1 0)
              (mkTarget 600 100 None) eq_refl eq_refl eq_refl eq_refl eq_refl)
    as (banked & H1 & H2 & _).
  - discriminate.
  - exists banked. split; [exact H1|exact H2].
Defined.

Lemma leaveCheck_reached guild u st upd :
  getTarget (guild_id guild) u st = Some upd ->
  target_seconds upd <= accumulated_seconds upd ->
  leaveCheck guild u st =
    (clearTarget (guild_id guild) u st,
     match members_fetch guild u with
     | Some _ => [Send (guild_id guild) u CongratsTarget]
     | None => []
     end).
Proof.
  intros Hk Hge. unfold leaveCheck. cbv zeta. rewrite Hk.
  by rewrite Z.geb_leb, (proj2 (Z.leb_le _ _)) by lia.
Qed.

(** A leave that brings the banked total up to the target deletes the
    target row and congratulates the member if the member can be fetched;
    it never kicks, posts to a channel or logs an error, whatever the
    agent's permissions are. *)
Theorem reached_on_leave_is_never_enforced
    (now : Z) (guild : Guild) (u : string) (old new : option string)
    (st : Store) (row : Target) :
  getTarget (guild_id guild) u st = Some row ->
  channel_present old = true -> channel_present new = false ->
  target_seconds row <= accumulated_seconds row + leaveElapsed now row ->
  let g := guild_id guild in
  let res := voiceStateUpdate now false guild u old new st in
  targets res.1 !! (g, u) = None
  /\ res.2 = match members_fetch guild u with
             | Some _ => [Send g u CongratsTarget]
             | None => []
             end
  /\ (forall e, e ∈ res.2 -> e = Send g u CongratsTarget).
Proof.
  intros Hk Hold Hnew Hge g res. unfold res.
  rewrite (voiceStateUpdate_leave now guild u old new st row) by done.
  set (st3 := leaveAccount now (guild_id guild) u row st).
  assert (targets st3 !! (g, u) = Some (foldSession (leaveElapsed now row) row)) as Hk3.
  { unfold st3. rewrite leaveAccount_targets, decide_True by done.
    unfold getTarget in Hk. fold g in Hk. by rewrite Hk. }
  rewrite (leaveCheck_reached guild u st3 _ Hk3) by (simpl; lia).
  cbn [fst snd]. split; [by rewrite targets_clearTarget, decide_True|].
  split; [done|].
  intros e. destruct (members_fetch guild u); [|by intros ?%elem_of_nil].
  by intros ->%list_elem_of_singleton.
Qed.

Lemma reached_on_leave_is_never_enforced_witness :
  (voiceStateUpdate 601000 false (ex_guild true None) "u" (Some "vc") None
     (ex_store 600 0 (Some 1000) 1 0)).2
  = [Send "g" "u" CongratsTarget].
Proof.
  pose proof (reached_on_leave_is_never_enforced 601000 (ex_guild true None) "u"
                (Some "vc") None (ex_store 600 0 (Some 1000) 1 0)
                (mkTarget 600 0 (Some 1000)) eq_refl eq_refl eq_refl) as H.
  destruct H as (_ & H & _).
  - vm_compute. discriminate.
  - exact H.
Defined.

Lemma interactionCreate_settarget_pos g u (minutes : DiscordNumber) seconds st :
  js_ltb (js_of_Z 0) (dn_value minutes) = true ->
  Math_floor (js_mul (dn_value minutes) (js_of_Z 60)) = Some seconds ->
  interactionCreate (Some g) u (settarget minutes) st
    = (setTarget g u seconds st, [Reply (TargetSet (dn_value minutes)) false]).
Proof.
  intros Hlt Hs. cbn [interactionCreate].
  by rewrite discord_number_sign, Hlt, Hs.
Qed.

(** A target set while the member already sits in a voice channel has no
    session start, so the next leave banks nothing however late it comes:
    a target of at least one second (floor of the binary64 product
    minutes * 60) then counts as left early, and a kickable member is
    kicked with 0 progress; a target that rounds down to 0 seconds counts
    as reached. *)
Theorem settarget_while_in_voice_banks_nothing
    (now : Z) (guild : Guild) (u : string) (minutes : DiscordNumber) (tgt : Z)
    (old new : option string) (st : Store) :
  js_ltb (js_of_Z 0) (dn_value minutes) = true ->
  Math_floor (js_mul (dn_value minutes) (js_of_Z 60)) = Some tgt ->
  channel_present old = true -> channel_present new = false ->
  let g := guild_id guild in
  let st1 := (interactionCreate (Some g) u (settarget minutes) st).1 in
  let res := voiceStateUpdate now false guild u old new st1 in
  (targets res.1 !! (g, u) = None
   \/ targets res.1 !! (g, u) = Some (mkTarget tgt 0 None))
  /\ (0 < tgt -> forall m, members_fetch guild u = Some m ->
        me_has_KickMembers guild = true ->
        roles_highest_position m < me_roles_highest_position guild ->
        kick_succeeds m = true ->
        res.2 = [Kick g u (KickReasonLeftEarly 0 tgt); Send g u (KickedLeftEarly 0 tgt)]
        /\ targets res.1 !! (g, u) = None)
  /\ (tgt <= 0 ->
        res.2 = match members_fetch guild u with
                | Some _ => [Send g u CongratsTarget]
                | None => []
                end
        /\ targets res.1 !! (g, u) = None).
Proof.
  intros Hpos Htgt Hold Hnew g st1 res.
  set (row1 := mkTarget tgt 0 None).
  assert (getTarget g u st1 = Some row1) as Hk1.
  { unfold st1. rewrite (interactionCreate_settarget_pos g u minutes tgt) by done.
    unfold getTarget. simpl. by rewrite lookup_insert_eq. }
  assert (res = leaveCheck guild u (leaveAccount now g u row1 st1)) as Hres.
  { unfold res. by apply voiceStateUpdate_leave. }
  set (st3 := leaveAccount now g u row1 st1) in *.
  assert (targets st3 !! (g, u) = Some row1) as Hk3.
  { unfold st3. rewrite leaveAccount_targets, decide_True by done.
    unfold getTarget in Hk1. by rewrite Hk1. }
  split.
  { rewrite Hres. destruct (leaveCheck_store guild u st3) as [-> | ->].
    - by right.
    - left. by rewrite targets_clearTarget, decide_True. }
  split.
  - intros Hgt m Hm Hperm Hrole Hkick.
    rewrite Hres, (leaveCheck_not_reached guild u st3 row1 Hk3) by (simpl; lia).
    rewrite Hm, Hperm. simpl negb. cbv iota.
    rewrite Z.geb_leb, (proj2 (Z.leb_gt _ _)) by lia. rewrite Hkick.
    cbn [fst snd]. split; [done|]. by rewrite targets_clearTarget, decide_True.
  - intros Hle.
    rewrite Hres, (leaveCheck_reached guild u st3 row1 Hk3) by (simpl; lia).
    cbn [fst snd]. split; [done|]. by rewrite targets_clearTarget, decide_True.
Qed.

(** /settarget 0.016666666666666666 stores a target of one second; two
    hours later the leave kicks with 0 of 1 second. *)
Lemma settarget_while_in_voice_banks_nothing_witness :
  (voiceStateUpdate 7200000 false (ex_guild true None) "u" (Some "vc") None
     (interactionCreate (Some "g") "u" (settarget min_sixtieth) emptyStore).1).2
  = [Kick "g" "u" (KickReasonLeftEarly 0 1); Send "g" "u" (KickedLeftEarly 0 1)].
Proof.
  pose proof (settarget_while_in_voice_banks_nothing 7200000 (ex_guild true None) "u"
                min_sixtieth 1 (Some "vc") None emptyStore
                eq_refl eq_refl eq_refl eq_refl) as (_ & H & _).
  apply (H eq_refl ex_member); reflexivity.
Defined.

(** A sampler tick at [t1] followed by the leave at [t2] credits the daily
    goal twice for the same session, floor((t1 - s)/1000) and then
    floor((t2 - s)/1000) seconds, while the target banks only the
    latter. *)
Theorem tick_then_leave_credits_goal_twice
    (client : Client) (t1 t2 : Z) (guild : Guild) (u : string)
    (old new : option string) (st : Store) (row : Target) (s : Z) (d : DailyGoal) :
  let k := (guild_id guild, u) in
  targets st !! k = Some row ->
  session_start row = Some s -> s <> 0 ->
  daily_goals st !! k = Some d ->
  rowCleared client t1 k row = false ->
  channel_present old = true -> channel_present new = false ->
  let sampled := (periodicCheck client t1 st).1 in
  let res := voiceStateUpdate t2 false guild u old new sampled in
  daily_goals res.1 !! k
    = Some (creditHours (hoursOf ((t2 - s) / 1000))
              (creditHours (hoursOf ((t1 - s) / 1000)) d))
  /\ exists banked,
       res = leaveCheck guild u banked
       /\ targets banked !! k
            = Some (mkTarget (target_seconds row)
                             (accumulated_seconds row + (t2 - s) / 1000) None).
Proof.
  intros k Hk Hs Hs0 Hd Hclr Hold Hnew sampled res.
  destruct (tick_open_session client t1 st k row Hk) as [Hd1 Hk1]; [by rewrite Hs|].
  specialize (Hk1 Hclr). fold sampled in Hd1, Hk1.
  assert (rowElapsed t1 row = (t1 - s) / 1000) as He1.
  { unfold rowElapsed, js_number. by rewrite Hs. }
  rewrite Hd, He1 in Hd1. simpl in Hd1.
  assert (res = leaveCheck guild u (leaveAccount t2 (guild_id guild) u row sampled))
    as Hres by (by apply voiceStateUpdate_leave).
  pose proof (leaveElapsed_open t2 row s Hs Hs0) as He2.
  split.
  - rewrite Hres.
    destruct (leaveCheck_todos_goals guild u
                (leaveAccount t2 (guild_id guild) u row sampled)) as [-> _].
    rewrite leaveAccount_goals, decide_True by done. fold k.
    by rewrite Hd1, He2.
  - eexists. split; [exact Hres|].
    rewrite leaveAccount_targets, decide_True by done. fold k. rewrite Hk1.
    simpl. unfold foldSession. by rewrite He2.
Qed.

Lemma tick_then_leave_credits_goal_twice_witness :
  daily_goals
    (voiceStateUpdate 31000 false (ex_guild false None) "u" (Some "vc") None
       (periodicCheck ex_client 21000 (ex_store 600 0 (Some 1000) 1 0)).1).1
    !! ("g", "u")
  = Some (creditHours (hoursOf ((31000 - 1000) / 1000))
            (creditHours (hoursOf ((21000 - 1000) / 1000)) (mkDailyGoal 1 0 None))).
Proof.
  pose proof (tick_then_leave_credits_goal_twice ex_client 21000 31000
                (ex_guild false None) "u" (Some "vc") None
                (ex_store 600 0 (Some 1000) 1 0) (mkTarget 600 0 (Some 1000)) 1000
                (mkDailyGoal 1 0 None) eq_refl eq_refl) as H.
  apply H; try reflexivity. discriminate.
Defined.

(** ** What a presence transition can touch *)

Lemma leaveCheck_events guild u st e :
  e ∈ (leaveCheck guild u st).2 -> presence_event (guild_id guild) u e.
Proof.
  unfold leaveCheck. cbv zeta.
  destruct (getTarget _ _ _) as [upd|]; [|by intros ?%elem_of_nil].
  destruct (_ >=? _).
  { destruct (members_fetch guild u); [|by intros ?%elem_of_nil].
    by intros ->%list_elem_of_singleton. }
  destruct (members_fetch guild u) as [m|]; [|by intros ?%elem_of_nil].
  destruct (negb _).
  { destruct (announceChannel guild); [|by intros ?%elem_of_nil].
    by intros ->%list_elem_of_singleton. }
  destruct (_ >=? _); [by intros ->%list_elem_of_singleton|].
  destruct (kick_succeeds m); cbn [snd];
    rewrite elem_of_cons, list_elem_of_singleton; by intros [-> | ->].
Qed.

Lemma voiceStateUpdate_todos now isBot guild u old new st :
  todos (voiceStateUpdate now isBot guild u old new st).1 = todos st
  /\ todos_seq (voiceStateUpdate now isBot guild u old new st).1 = todos_seq st.
Proof.
  unfold voiceStateUpdate. cbv zeta.
  destruct isBot; [done|].
  destruct (getTarget _ _ _) as [row|]; [|done].
  destruct (channel_present old), (channel_present new); simpl; try done.
  destruct (leaveCheck_todos_goals guild u
              (leaveAccount now (guild_id guild) u row st)) as (_ & -> & ->).
  apply leaveAccount_todos.
Qed.

(** A presence transition of member (g, u) changes no target row and no
    daily-goal row of anybody else, never touches the to-do table, and
    every effect it has on Discord concerns that member: a message to or a
    kick of that member, the left-early notice about that member in the
    member's guild, or a logged error. *)
Theorem presence_touches_only_its_member
    (now : Z) (isBot : bool) (guild : Guild) (u : string)
    (old new : option string) (st : Store) :
  let g := guild_id guild in
  let res := voiceStateUpdate now isBot guild u old new st in
  (forall k', k' <> (g, u) ->
     targets res.1 !! k' = targets st !! k'
     /\ daily_goals res.1 !! k' = daily_goals st !! k')
  /\ todos res.1 = todos st /\ todos_seq res.1 = todos_seq st
  /\ (forall e, e ∈ res.2 -> presence_event g u e).
Proof.
  intros g res. split.
  { intros k' Hne. split.
    - by apply voiceStateUpdate_targets_other.
    - by apply voiceStateUpdate_goals_other. }
  unfold res, voiceStateUpdate. cbv zeta.
  destruct isBot; [by repeat split; intros ? ?%elem_of_nil|].
  destruct (getTarget _ _ _) as [row|]; [|by repeat split; intros ? ?%elem_of_nil].
  destruct (channel_present old), (channel_present new); simpl;
    try (by repeat split; intros ? ?%elem_of_nil).
  destruct (leaveCheck_todos_goals guild u
              (leaveAccount now (guild_id guild) u row st)) as (_ & -> & ->).
  destruct (leaveAccount_todos now (guild_id guild) u row st) as [-> ->].
  repeat split. intros e. apply leaveCheck_events.
Qed.

Lemma presence_touches_only_its_member_witness :
  targets (voiceStateUpdate 1801000 false (ex_guild true None) "u" (Some "vc") None
             (ex_two_members 3600 0 (Some 1000))).1 !! ("g", "v")
  = targets (ex_two_members 3600 0 (Some 1000)) !! ("g", "v").
Proof.
  apply (presence_touches_only_its_member 1801000 false (ex_guild true None) "u"
           (Some "vc") None (ex_two_members 3600 0 (Some 1000))).
  discriminate.
Defined.

(** ** Clearing a target *)

(** [/cleartarget] deletes the member's target row, whether or not there
    was one, and changes nothing else; from then on no presence transition
    of that member does anything (in particular leaving early is no longer
    punished) and no tick sends the member a message. *)
Theorem cleartarget_disarms_enforcement (guild : Guild) (u : string) (st : Store) :
  let g := guild_id guild in
  let res := interactionCreate (Some g) u cleartarget st in
  res.2 = [Reply TargetCleared true]
  /\ targets res.1 = delete (g, u) (targets st)
  /\ daily_goals res.1 = daily_goals st
  /\ todos res.1 = todos st /\ todos_seq res.1 = todos_seq st
  /\ (forall now isBot old new,
        voiceStateUpdate now isBot guild u old new res.1 = (res.1, []))
  /\ (forall client now m, Send g u m ∉ (periodicCheck client now res.1).2).
Proof.
  intros g res. unfold res. simpl.
  repeat split.
  - intros. apply voiceStateUpdate_no_target.
    unfold getTarget. simpl. apply lookup_delete_eq.
  - intros client now m Hm.
    apply periodicCheck_send in Hm as (row & Hrow & _).
    simpl in Hrow. by rewrite lookup_delete_eq in Hrow.
Qed.

(** ** What a tick can do *)

Lemma sent_to_rowCongrats client now k row g u :
  List.filter (sent_to g u) (rowCongrats client now k row)
    = if decide (k = (g, u)) then rowCongrats client now k row else [].
Proof.
  destruct k as [g' u']. unfold rowCongrats. cbn [fst snd].
  destruct (_ >=? _); [|by case_decide].
  destruct (client g') as [guild|]; [|by case_decide].
  destruct (members_fetch guild u'); [|by case_decide].
  cbn [List.filter sent_to].
  case_decide as Heq.
  - injection Heq as -> ->. by rewrite !String.eqb_refl.
  - destruct (String.eqb_spec g g') as [->|]; [|done].
    destruct (String.eqb_spec u u') as [->|]; [|done]. done.
Qed.

Lemma sent_to_sessions_other client now (l : list (Key * Target)) g u :
  (g, u) ∉ l.*1 ->
  List.filter (sent_to g u)
    (concat (map (fun s => rowCongrats client now s.1 s.2) l)) = [].
Proof.
  induction l as [|[k r] l IH]; intros Hk; [done|].
  apply not_elem_of_cons in Hk as [Hne Hk]. cbn [map concat fst snd].
  rewrite List.filter_app, sent_to_rowCongrats, decide_False by done.
  by apply IH.
Qed.

Lemma sent_to_sessions_at client now (l : list (Key * Target)) g u row :
  NoDup l.*1 -> ((g, u), row) ∈ l ->
  List.filter (sent_to g u)
    (concat (map (fun s => rowCongrats client now s.1 s.2) l))
    = rowCongrats client now (g, u) row.
Proof.
  induction l as [|[k r] l IH]; intros Hnd Hin.
  - by apply elem_of_nil in Hin.
  - cbn [fmap list_fmap fst] in Hnd. apply NoDup_cons in Hnd as [Hk Hnd].
    cbn [map concat fst snd]. rewrite List.filter_app, sent_to_rowCongrats.
    apply elem_of_cons in Hin as [Heq|Hin].
    + injection Heq as <- <-. rewrite decide_True by done.
      rewrite sent_to_sessions_other by done. by rewrite app_nil_r.
    + rewrite decide_False; [by apply IH|].
      intros ->. apply Hk. by apply (list_elem_of_fmap_2 fst) in Hin.
Qed.

(** The messages one tick sends to member (g, u), in order. *)
Lemma periodicCheck_sent_to client now st g u :
  List.filter (sent_to g u) (periodicCheck client now st).2
    = match targets st !! (g, u) with
      | Some row => if is_open row then rowCongrats client now (g, u) row else []
      | None => []
      end.
Proof.
  unfold periodicCheck. rewrite fold_events. cbn [snd app].
  destruct (targets st !! (g, u)) as [row|] eqn:Hk.
  - unfold is_open. case_bool_decide as Ho.
    + apply sent_to_sessions_at; [apply active_sessions_NoDup|].
      by apply active_sessions_elem.
    + apply sent_to_sessions_other. rewrite active_sessions_key.
      intros (row' & ? & ?). congruence.
  - apply sent_to_sessions_other. rewrite active_sessions_key.
    intros (row' & ? & ?). congruence.
Qed.

(** All a tick ever does to Discord is congratulate: every event is the
    target-reached message to a member whose open session has reached the
    target, and that member's target row is gone afterwards.  A tick never
    kicks, never posts to a channel, never touches the to-do table, and
    never creates or deletes a daily goal or alters its [goal_hours]. *)
Theorem tick_only_congratulates (client : Client) (now : Z) (st : Store) :
  let res := periodicCheck client now st in
  (forall e, e ∈ res.2 ->
     exists g u row,
       targets st !! (g, u) = Some row /\ is_Some (session_start row)
       /\ target_seconds row <= projectedTotal now row
       /\ e = Send g u (CongratsTargetHours (target_seconds row))
       /\ targets res.1 !! (g, u) = None)
  /\ todos res.1 = todos st /\ todos_seq res.1 = todos_seq st
  /\ (forall k, goal_hours <$> daily_goals res.1 !! k
                = goal_hours <$> daily_goals st !! k).
Proof.
  intros res. split.
  { intros e He. pose proof He as He'.
    apply periodicCheck_events in He as (k & row & Hk & Ho & He).
    destruct (rowCongrats_only_sends _ _ _ _ _ He) as [m ->].
    destruct k as [g u]. cbn [fst snd] in *.
    apply rowCongrats_send in He as (_ & Hge & -> & guild & Hg & Hm).
    exists g, u, row. repeat split; try done.
    unfold res. rewrite periodicCheck_targets, Hk.
    unfold is_open, rowCleared. rewrite bool_decide_eq_true_2 by done.
    rewrite Z.geb_leb, (proj2 (Z.leb_le _ _)) by lia.
    by rewrite bool_decide_eq_true_2 by (cbn [fst]; rewrite Hg; eauto). }
  destruct (periodicCheck_todos client now st) as [Ht Hs].
  split; [done|]. split; [done|].
  intros k. unfold res. rewrite periodicCheck_goals.
  destruct (targets st !! k) as [row|]; [|done].
  destruct (is_open row); [|done].
  by destruct (daily_goals st !! k).
Qed.

Lemma tick_only_congratulates_witness :
  exists g u row,
    targets (ex_two_members 600 0 (Some 1000)) !! (g, u) = Some row
    /\ Send "g" "u" (CongratsTargetHours 600)
       = Send g u (CongratsTargetHours (target_seconds row)).
Proof.
  destruct (tick_only_congratulates ex_client 601000 (ex_two_members 600 0 (Some 1000)))
    as (H & _).
  destruct (H (Send "g" "u" (CongratsTargetHours 600))) as (g & u & row & Hk & _ & _ & He & _).
  - vm_compute. left.
  - exists g, u, row. split; [exact Hk|exact He].
Defined.

(** With no open session in the table a tick does nothing at all. *)
Theorem tick_without_sessions_is_noop (client : Client) (now : Z) (st : Store) :
  (forall k row, targets st !! k = Some row -> session_start row = None) ->
  periodicCheck client now st = (st, []).
Proof.
  intros Hnone. unfold periodicCheck.
  assert (getAllActiveSessions st = []) as ->; [|done].
  unfold getAllActiveSessions. apply map_to_list_empty_iff, map_empty.
  intros k. apply eq_None_not_Some. intros [row Hrow].
  apply map_lookup_filter_Some in Hrow as [Hk [s Hs]].
  cbn [snd] in Hs. rewrite (Hnone k row Hk) in Hs. discriminate.
Qed.

Lemma tick_without_sessions_is_noop_witness :
  periodicCheck ex_client 5000 (ex_store 600 100 None 1 0)
  = (ex_store 600 100 None 1 0, []).
Proof.
  apply tick_without_sessions_is_noop.
  intros k row Hk. unfold ex_store in Hk. cbn [targets] in Hk.
  apply lookup_singleton_Some in Hk as [_ <-]. reflexivity.
Defined.

(** A join followed by a tick that finds the target reached, with the
    guild cached and the member fetchable: the tick sends the member the
    congratulation exactly once and deletes the target row, and no later
    tick sends that member anything. *)
Theorem join_then_tick_completes_once
    (client : Client) (t0 t : Z) (guild guild' : Guild) (u : string)
    (old new : option string) (st : Store) (row : Target) (m : GuildMember) :
  let g := guild_id guild in
  getTarget g u st = Some row ->
  channel_present old = false -> channel_present new = true ->
  client g = Some guild' -> members_fetch guild' u = Some m ->
  target_seconds row <= accumulated_seconds row + (t - t0) / 1000 ->
  let joined := (voiceStateUpdate t0 false guild u old new st).1 in
  let res := periodicCheck client t joined in
  List.filter (sent_to g u) res.2 = [Send g u (CongratsTargetHours (target_seconds row))]
  /\ targets res.1 !! (g, u) = None
  /\ (forall client' t', List.filter (sent_to g u) (periodicCheck client' t' res.1).2 = []).
Proof.
  intros g Hk Hold Hnew Hg Hm Hge joined res.
  destruct (joined_store t0 guild u old new st row Hk Hold Hnew) as (Hj & _).
  fold joined g in Hj.
  assert (targets res.1 !! (g, u) = None) as Hgone.
  { unfold res. rewrite periodicCheck_targets, Hj.
    unfold is_open, rowCleared, projectedTotal, rowElapsed, elapsedSeconds. cbn.
    rewrite Z.geb_leb, (proj2 (Z.leb_le _ _)) by lia.
    by rewrite Hg. }
  split; [|split; [done|]].
  - unfold res. rewrite periodicCheck_sent_to, Hj.
    unfold is_open, rowCongrats, projectedTotal, rowElapsed, elapsedSeconds. cbn.
    rewrite Z.geb_leb, (proj2 (Z.leb_le _ _)) by lia.
    by rewrite Hg, Hm.
  - intros client' t'. by rewrite periodicCheck_sent_to, Hgone.
Qed.

Lemma join_then_tick_completes_once_witness :
  List.filter (sent_to "g" "u")
    (periodicCheck ex_client 601000
       (voiceStateUpdate 1000 false (ex_guild true None) "u" None (Some "vc")
          (ex_two_members 600 0 None)).1).2
  = [Send "g" "u" (CongratsTargetHours 600)].
Proof.
  pose proof (join_then_tick_completes_once ex_client 1000 601000 (ex_guild true None)
                (ex_guild true None) "u" None (Some "vc") (ex_two_members 600 0 None)
                (mkTarget 600 0 None) ex_member
                eq_refl eq_refl eq_refl eq_refl eq_refl) as H.
  apply H. vm_compute. discriminate.
Defined.

(** ** Where rows come from *)

Lemma step_keeps_target_absent o st k :
  is_settarget o = false ->
  targets st !! k = None -> targets (runOp o st).1 !! k = None.
Proof.
  intros Ho Hk. apply eq_None_not_Some. intros [r' Hr'].
  destruct o as [now isBot guild u old new|client now|client|guild u c]; cbn [runOp] in Hr'.
  - destruct (decide (k = (guild_id guild, u))) as [->|Hne].
    + rewrite voiceStateUpdate_no_target in Hr' by done. simpl in Hr'. congruence.
    + rewrite voiceStateUpdate_targets_other in Hr' by done. congruence.
  - rewrite periodicCheck_targets, Hk in Hr'. discriminate.
  - simpl in Hr'. congruence.
  - apply interactionCreate_targets in Hr'; [congruence|done].
Qed.

Lemma step_keeps_goal_absent o st k :
  is_setgoal o = false ->
  daily_goals st !! k = None -> daily_goals (runOp o st).1 !! k = None.
Proof.
  intros Ho Hk.
  destruct o as [now isBot guild u old new|client now|client|guild u c]; cbn [runOp].
  - destruct (voiceStateUpdate_goals now isBot guild u old new st k) as [->|[h ->]];
      by rewrite Hk.
  - rewrite periodicCheck_goals, Hk. by repeat case_match.
  - simpl. apply lookup_empty.
  - unfold interactionCreate. destruct guild as [g|]; [|done].
    destruct c; simpl; try done.
    + destruct (js_leb _ _); [done|]. by destruct (Math_floor _).
    + by destruct (getTodos g u st).
Qed.

Lemma run_keeps_goal_absent ops st k :
  forallb (fun o => negb (is_setgoal o)) ops = true ->
  daily_goals st !! k = None -> daily_goals (runOps ops st).1 !! k = None.
Proof.
  revert st. induction ops as [|o ops IH]; intros st Hops Hk; [done|].
  simpl in Hops. apply andb_prop in Hops as [Ho Hops].
  apply negb_true_iff in Ho. rewrite runOps_cons_store.
  apply IH; [done|]. by apply step_keeps_goal_absent.
Qed.

Lemma run_keeps_target_absent ops st k :
  forallb (fun o => negb (is_settarget o)) ops = true ->
  targets st !! k = None -> targets (runOps ops st).1 !! k = None.
Proof.
  revert st. induction ops as [|o ops IH]; intros st Hops Hk; [done|].
  simpl in Hops. apply andb_prop in Hops as [Ho Hops].
  apply negb_true_iff in Ho. rewrite runOps_cons_store.
  apply IH; [done|]. by apply step_keeps_target_absent.
Qed.

(** Target rows come into being through [/settarget] only and daily-goal
    rows through [/setgoal] only: over any run of other operations a member
    without a target row stays without one, and likewise for the daily
    goal. *)
Theorem rows_are_created_by_their_command_only
    (ops : list Op) (st : Store) (k : Key) :
  (forallb (fun o => negb (is_settarget o)) ops = true ->
   targets st !! k = None -> targets (runOps ops st).1 !! k = None)
  /\ (forallb (fun o => negb (is_setgoal o)) ops = true ->
      daily_goals st !! k = None -> daily_goals (runOps ops st).1 !! k = None).
Proof.
  split.
  - apply run_keeps_target_absent.
  - apply run_keeps_goal_absent.
Qed.

Lemma rows_are_created_by_their_command_only_witness :
  targets (runOps [OpCommand (Some "g") "u" (setgoal 5);
                   OpVoice 1000 false (ex_guild true None) "u" None (Some "vc");
                   OpTick ex_client 11000;
                   OpCommand (Some "g") "u" cleartarget;
                   OpReset ex_client] emptyStore).1 !! ("g", "u") = None.
Proof.
  apply (rows_are_created_by_their_command_only _ emptyStore ("g", "u")); reflexivity.
Defined.

(** ** Rollover, again *)

(** After a daily reset nobody is penalized a second time: as long as no
    [/setgoal] intervenes, a later reset finds no daily goal, kicks and
    messages nobody and only logs its completion.  In particular two resets
    in a row leave the store of the first. *)
Theorem daily_reset_penalizes_once
    (c1 c2 : Client) (ops : list Op) (st : Store) :
  forallb (fun o => negb (is_setgoal o)) ops = true ->
  let after := (runOps ops (dailyReset c1 st).1).1 in
  (dailyReset c2 after).2 = [ConsoleLog]
  /\ dailyReset c2 (dailyReset c1 st).1 = ((dailyReset c1 st).1, [ConsoleLog]).
Proof.
  intros Hops after. split.
  - assert (daily_goals after = ∅) as Hempty.
    { apply map_empty. intros k.
      apply run_keeps_goal_absent; [done|].
      simpl. apply lookup_empty. }
    unfold dailyReset, getAllDailyGoals. cbv zeta. cbn [snd].
    by rewrite Hempty, map_to_list_empty.
  - unfold dailyReset, getAllDailyGoals, clearDailyGoals. simpl.
    by rewrite map_to_list_empty.
Qed.

Lemma daily_reset_penalizes_once_witness :
  (dailyReset ex_client
     (runOps [OpTick ex_client 11000; OpCommand (Some "g") "u" (settarget min_10)]
             (dailyReset ex_client (ex_goal_only 5 3)).1).1).2
  = [ConsoleLog].
Proof.
  apply (daily_reset_penalizes_once ex_client ex_client
           [OpTick ex_client 11000; OpCommand (Some "g") "u" (settarget min_10)]
           (ex_goal_only 5 3)).
  reflexivity.
Defined.

(** ** Sanity of stored goals *)

Lemma step_target_seconds o st k r' :
  is_settarget o = false ->
  targets (runOp o st).1 !! k = Some r' ->
  exists r, targets st !! k = Some r /\ target_seconds r' = target_seconds r.
Proof.
  intros Ho Hr'.
  destruct (targets st !! k) as [r|] eqn:Hk.
  2:{ by rewrite (step_keeps_target_absent o st k Ho Hk) in Hr'. }
  exists r. split; [done|].
  destruct o as [now isBot guild u old new|client now|client|guild u c]; cbn [runOp] in Hr'.
  - destruct (decide (k = (guild_id guild, u))) as [->|Hne].
    2:{ rewrite voiceStateUpdate_targets_other in Hr' by done. congruence. }
    pose proof (voiceStateUpdate_targets_own now isBot guild u old new st r Hk) as Hown.
    cbv zeta in Hown.
    destruct (_ && _ && _).
    { destruct Hown as [Hown|Hown]; rewrite Hown in Hr'; [done|].
      by injection Hr' as <-. }
    destruct (_ && _ && _).
    { rewrite Hown in Hr'. by injection Hr' as <-. }
    rewrite Hown in Hr'. congruence.
  - rewrite periodicCheck_targets, Hk in Hr'.
    destruct (_ && _); [done|]. congruence.
  - simpl in Hr'. congruence.
  - apply interactionCreate_targets in Hr'; [congruence|done].
Qed.

Lemma goals_sane_step o st : goals_sane st -> goals_sane (runOp o st).1.
Proof.
  intros [Ht Hg]. split.
  - intros k r' Hr'.
    destruct (is_settarget o) eqn:Ho.
    + destruct o as [| | |guild u []]; try discriminate. cbn [runOp] in Hr'.
      destruct guild as [g|]; [|by apply (Ht k)].
      cbn [interactionCreate] in Hr'.
      destruct (js_leb _ _) eqn:Hn; [by apply (Ht k)|].
      destruct (Math_floor _) as [seconds|] eqn:Hs; [|by apply (Ht k)].
      simpl in Hr'. rewrite lookup_insert in Hr'. case_decide; [|by apply (Ht k)].
      injection Hr' as <-. simpl. by eapply positive_times_sixty_nonneg.
    + destruct (step_target_seconds o st k r' Ho Hr') as (r & Hr & ->). by apply (Ht k).
  - intros k d' Hd'.
    destruct o as [now isBot guild u old new|client now|client|guild u c]; cbn [runOp] in Hd'.
    + destruct (voiceStateUpdate_goals now isBot guild u old new st k) as [Heq|[h Heq]];
        rewrite Heq in Hd'; [by apply (Hg k)|].
      destruct (daily_goals st !! k) as [d|] eqn:Hd; [|done].
      injection Hd' as <-. simpl. by apply (Hg k).
    + rewrite periodicCheck_goals in Hd'.
      destruct (targets st !! k) as [row|]; [|by apply (Hg k)].
      destruct (is_open row); [|by apply (Hg k)].
      destruct (daily_goals st !! k) as [d|] eqn:Hd; [|done].
      injection Hd' as <-. simpl. by apply (Hg k).
    + simpl in Hd'. by rewrite lookup_empty in Hd'.
    + unfold interactionCreate in Hd'. destruct guild as [g|]; [|by apply (Hg k)].
      destruct c; simpl in Hd'; try (by apply (Hg k)).
      * destruct (js_leb _ _); [by apply (Hg k)|]. destruct (Math_floor _); by apply (Hg k).
      * destruct (getTodos g u st); by apply (Hg k).
      * destruct (Qnonpos hours) eqn:Hn; [by apply (Hg k)|].
        simpl in Hd'. rewrite lookup_insert in Hd'. case_decide; [|by apply (Hg k)].
        injection Hd' as <-. simpl.
        apply Qnot_le_lt. intros Hle. apply Qnonpos_le in Hle. congruence.
Qed.

(** In every store reached from the empty database, each target row has
    [target_seconds >= 0] (it can be 0: a target below one second rounds
    down) and each daily-goal row has [goal_hours > 0]. *)
Theorem stored_goals_are_sane (ops : list Op) (k : Key) :
  (forall r, targets (runOps ops emptyStore).1 !! k = Some r -> 0 <= target_seconds r)
  /\ (forall d, daily_goals (runOps ops emptyStore).1 !! k = Some d ->
        (0 < goal_hours d)%Q).
Proof.
  assert (forall st, goals_sane st -> goals_sane (runOps ops st).1) as Hrun.
  { induction ops as [|o ops IH]; intros st Hst; [done|].
    rewrite runOps_cons_store. by apply IH, goals_sane_step. }
  destruct (Hrun emptyStore) as [Ht Hg].
  { split; intros k' x; unfold emptyStore; simpl; by rewrite lookup_empty. }
  split; [apply Ht|apply Hg].
Qed.

Lemma stored_goals_are_sane_witness :
  0 <= target_seconds (mkTarget 0 0 None).
Proof.
  apply (stored_goals_are_sane [OpCommand (Some "g") "u" (settarget min_0_01)]
           ("g", "u")).
  reflexivity.
Defined.

(** ** The to-do list *)

Lemma todo_owned_spec g u t :
  todo_owned g u t = true <-> todo_guild_id t = g /\ todo_user_id t = u.
Proof.
  unfold todo_owned. rewrite andb_true_iff, !String.eqb_eq. done.
Qed.

Lemma completeTodo_markDone g u id st :
  completeTodo g u id st
    = with_todos st (List.map (markDone g u id) (todos st)) (todos_seq st).
Proof. done. Qed.

Lemma markDone_same_task g u id t : same_task t (markDone g u id t).
Proof. unfold markDone, same_task. by destruct (_ && _). Qed.

Lemma markDone_owned g u id g' u' t :
  todo_owned g' u' (markDone g u id t) = todo_owned g' u' t.
Proof. unfold markDone. by destruct (_ && _). Qed.

Lemma markDone_other g u id t :
  ~ is_task_of g u id t -> markDone g u id t = t.
Proof.
  intros Hno. unfold markDone.
  destruct (todo_owned g u t && (task_id t =? id)) eqn:E; [|done].
  apply andb_true_iff in E as [Ho Hid].
  apply todo_owned_spec in Ho as [? ?]. apply Z.eqb_eq in Hid.
  destruct Hno. done.
Qed.

Lemma markDone_hit g u id t :
  is_task_of g u id t -> markDone g u id t = mkTodo g u id (task t) 1.
Proof.
  intros (Hg & Hu & Hid). unfold markDone.
  rewrite (proj2 (todo_owned_spec g u t)) by done.
  rewrite (proj2 (Z.eqb_eq _ _) Hid). simpl. by rewrite Hg, Hu, Hid.
Qed.

Lemma markDone_idem g u id t :
  markDone g u id (markDone g u id t) = markDone g u id t.
Proof.
  unfold markDone, todo_owned.
  destruct ((todo_guild_id t =? g)%string && (todo_user_id t =? u)%string
            && (task_id t =? id)) eqn:E; simpl; by rewrite E.
Qed.

Lemma filter_map_commute {A} (P : A -> bool) (f : A -> A) (l : list A) :
  (forall x, P (f x) = P x) ->
  List.filter P (List.map f l) = List.map f (List.filter P l).
Proof.
  intros HP. induction l as [|x l IH]; [done|]. simpl.
  rewrite HP. destruct (P x); simpl; by rewrite IH.
Qed.

Lemma map_id_on {A} (f : A -> A) (l : list A) :
  (forall x, x ∈ l -> f x = x) -> List.map f l = l.
Proof.
  induction l as [|x l IH]; intros Hf; [done|]. simpl.
  rewrite Hf by left. rewrite IH; [done|]. intros y Hy. apply Hf. by right.
Qed.

Lemma filter_id_on {A} (P : A -> bool) (l : list A) :
  (forall x, x ∈ l -> P x = true) -> List.filter P l = l.
Proof.
  induction l as [|x l IH]; intros HP; [done|]. simpl.
  rewrite HP by left. rewrite IH; [done|]. intros y Hy. apply HP. by right.
Qed.

Lemma filter_filter_absorb {A} (P Q : A -> bool) (l : list A) :
  (forall x, P x = true -> Q x = true) ->
  List.filter P (List.filter Q l) = List.filter P l.
Proof.
  intros HPQ. induction l as [|x l IH]; [done|]. simpl.
  destruct (Q x) eqn:HQ; simpl.
  - by rewrite IH.
  - destruct (P x) eqn:HP; [|done]. apply HPQ in HP. congruence.
Qed.

(** [/addtodo] appends a fresh, uncompleted task carrying the next id of
    the AUTOINCREMENT counter to the member's list; a following
    [/listtodos] replies with the member's earlier tasks followed by the
    new one.  Target and daily-goal rows stay as they are. *)
Theorem addtodo_then_listtodos (g u text : string) (st : Store) :
  let added := interactionCreate (Some g) u (addtodo text) st in
  let new := mkTodo g u (todos_seq st + 1) text 0 in
  added.2 = [Reply (TaskAdded text) true]
  /\ getTodos g u added.1 = getTodos g u st ++ [new]
  /\ interactionCreate (Some g) u listtodos added.1
       = (added.1, [Reply (TaskList (getTodos g u st ++ [new])) true])
  /\ todos_seq added.1 = todos_seq st + 1
  /\ targets added.1 = targets st /\ daily_goals added.1 = daily_goals st.
Proof.
  intros added new.
  assert (getTodos g u added.1 = getTodos g u st ++ [new]) as Hget.
  { unfold added, getTodos. simpl. rewrite List.filter_app. simpl.
    unfold todo_owned at 2. simpl. by rewrite !String.eqb_refl. }
  repeat split; try done.
  unfold interactionCreate at 1. rewrite Hget.
  by destruct (getTodos g u st).
Qed.

(** [/listtodos] of a member without tasks says so and changes nothing. *)
Theorem listtodos_of_nothing (g u : string) (st : Store) :
  (forall t, t ∈ todos st -> ~ (todo_guild_id t = g /\ todo_user_id t = u)) ->
  interactionCreate (Some g) u listtodos st = (st, [Reply NoTasks true]).
Proof.
  intros Hnone. simpl.
  assert (getTodos g u st = []) as ->; [|done].
  unfold getTodos. destruct (List.filter _ _) as [|t l] eqn:E; [done|].
  assert (In t (List.filter (todo_owned g u) (todos st))) as Hin by (rewrite E; by left).
  apply filter_In in Hin as [Hin Ho]. apply todo_owned_spec in Ho.
  apply list_elem_of_In in Hin. by destruct (Hnone t Hin).
Qed.

Lemma listtodos_of_nothing_witness :
  interactionCreate (Some "g") "w" listtodos (ex_two_members 600 0 None)
  = (ex_two_members 600 0 None, [Reply NoTasks true]).
Proof.
  apply listtodos_of_nothing. intros t Ht [Hg Hu].
  vm_compute in Ht. apply list_elem_of_In in Ht. simpl in Ht.
  destruct Ht as [<-|[<-|[]]]; discriminate.
Defined.

(** [/donetodo id] always answers that the task is done.  It keeps every
    row's id, owner and text and the order of the table, sets [completed]
    to 1 on the member's own task with that id and changes no other flag;
    if the member has no such task (unknown id, or somebody else's task)
    the store is unchanged.  Doing it twice is the same as doing it
    once. *)
Theorem donetodo_marks_own_task (g u : string) (id : Z) (st : Store) :
  let res := interactionCreate (Some g) u (donetodo id) st in
  res.2 = [Reply (TaskDone id) true]
  /\ Forall2 (fun t t' =>
                same_task t t'
                /\ (is_task_of g u id t -> completed t' = 1)
                /\ (~ is_task_of g u id t -> t' = t))
             (todos st) (todos res.1)
  /\ ((forall t, t ∈ todos st -> ~ is_task_of g u id t) -> res.1 = st)
  /\ (interactionCreate (Some g) u (donetodo id) res.1).1 = res.1
  /\ todos_seq res.1 = todos_seq st
  /\ targets res.1 = targets st /\ daily_goals res.1 = daily_goals st.
Proof.
  intros res. unfold res. cbn [interactionCreate fst snd].
  rewrite !completeTodo_markDone. cbn [with_todos todos todos_seq targets daily_goals].
  split; [done|]. split.
  { apply Forall2_fmap_r, Forall_Forall2_diag, Forall_forall. intros t _.
    split; [apply markDone_same_task|]. split.
    - intros Ht. by rewrite markDone_hit.
    - apply markDone_other. }
  split.
  { intros Hnone. destruct st as [tg td sq dg]. unfold with_todos. simpl in *.
    f_equal. apply map_id_on. intros t Ht. by apply markDone_other, Hnone. }
  split; [|done].
  unfold with_todos. cbn [todos todos_seq targets daily_goals]. f_equal.
  rewrite List.map_map. apply List.map_ext. intros t. apply markDone_idem.
Qed.

Lemma donetodo_marks_own_task_witness :
  (interactionCreate (Some "g") "u" (donetodo 2) (ex_two_members 600 0 None)).1
    = ex_two_members 600 0 None
  /\ (interactionCreate (Some "g") "u" (donetodo 2) (ex_two_members 600 0 None)).2
    = [Reply (TaskDone 2) true].
Proof.
  destruct (donetodo_marks_own_task "g" "u" 2 (ex_two_members 600 0 None))
    as (H1 & _ & H3 & _).
  split; [|exact H1]. apply H3.
  intros t Ht (Hg & Hu & Hid).
  vm_compute in Ht. apply list_elem_of_In in Ht. simpl in Ht.
  destruct Ht as [<-|[<-|[]]]; discriminate.
Defined.

(** [/deltodo id] always answers that the task is deleted.  Afterwards the
    table holds exactly the earlier rows other than the member's own task
    with that id; if the member has no such task the store is unchanged.
    The AUTOINCREMENT counter is not wound back. *)
Theorem deltodo_removes_own_task (g u : string) (id : Z) (st : Store) :
  let res := interactionCreate (Some g) u (deltodo id) st in
  res.2 = [Reply (TaskDeleted id) true]
  /\ (forall t, t ∈ todos res.1 <-> t ∈ todos st /\ ~ is_task_of g u id t)
  /\ ((forall t, t ∈ todos st -> ~ is_task_of g u id t) -> res.1 = st)
  /\ todos_seq res.1 = todos_seq st
  /\ targets res.1 = targets st /\ daily_goals res.1 = daily_goals st.
Proof.
  intros res. unfold res. simpl.
  assert (forall t, negb (todo_owned g u t && (task_id t =? id)) = true
                    <-> ~ is_task_of g u id t) as Hkeep.
  { intros t. rewrite negb_true_iff, andb_false_iff. unfold is_task_of.
    destruct (todo_owned g u t) eqn:Ho.
    - apply todo_owned_spec in Ho as [-> ->].
      destruct (Z.eqb_spec (task_id t) id); split; try tauto; intros; intuition congruence.
    - split; [|by left]. intros _ (Hg & Hu & _).
      assert (todo_owned g u t = true) by (by apply todo_owned_spec). congruence. }
  split; [done|]. split.
  { intros t. rewrite !list_elem_of_In, filter_In. by rewrite Hkeep. }
  split; [|done].
  intros Hnone. unfold deleteTodo, with_todos. destruct st as [tg td sq dg]. simpl in *.
  f_equal. apply filter_id_on. intros t Ht. by apply Hkeep, Hnone.
Qed.

Lemma deltodo_removes_own_task_witness :
  mkTodo "g" "v" 2 "write" 0
    ∈ todos (interactionCreate (Some "g") "u" (deltodo 2) (ex_two_members 600 0 None)).1.
Proof.
  apply (deltodo_removes_own_task "g" "u" 2 (ex_two_members 600 0 None)).
  split.
  - vm_compute. right. left.
  - intros (_ & Hu & _). discriminate.
Defined.

(** ** Task ids *)

Lemma same_task_trans t1 t2 t3 : same_task t1 t2 -> same_task t2 t3 -> same_task t1 t3.
Proof. unfold same_task. intuition congruence. Qed.

Lemma interactionCreate_todos g u c st :
  (forall text, c <> addtodo text) -> (forall id, c <> donetodo id) ->
  (forall id, c <> deltodo id) ->
  todos (interactionCreate g u c st).1 = todos st
  /\ todos_seq (interactionCreate g u c st).1 = todos_seq st.
Proof.
  intros Ha Hd Hx. unfold interactionCreate. destruct g as [g|]; [|done].
  destruct c; try done; simpl.
  - destruct (js_leb _ _); [done|]. by destruct (Math_floor _).
  - by destruct (Ha text).
  - by destruct (getTodos g u st).
  - by destruct (Hd id).
  - by destruct (Hx id).
  - by destruct (Qnonpos hours).
Qed.

(** What one operation does to the to-do table. *)
Lemma todos_step o st :
  todos_seq st <= todos_seq (runOp o st).1
  /\ forall t', t' ∈ todos (runOp o st).1 ->
       (exists t, t ∈ todos st /\ same_task t t')
       \/ (todos_seq st < task_id t' <= todos_seq (runOp o st).1).
Proof.
  assert (forall st' : Store, todos st' = todos st -> todos_seq st' = todos_seq st ->
            todos_seq st <= todos_seq st'
            /\ forall t', t' ∈ todos st' ->
                 (exists t, t ∈ todos st /\ same_task t t')
                 \/ (todos_seq st < task_id t' <= todos_seq st')) as Hsame.
  { intros st' -> ->. split; [lia|]. intros t' Ht'. left. exists t'. by split. }
  destruct o as [now isBot guild u old new|client now|client|guild u c]; cbn [runOp].
  - apply Hsame; apply voiceStateUpdate_todos.
  - apply Hsame; apply periodicCheck_todos.
  - simpl. split; [lia|]. by intros t' ?%elem_of_nil.
  - destruct guild as [g|]; [|by apply Hsame].
    destruct c; try (apply Hsame; by apply interactionCreate_todos).
    + (* addtodo *)
      simpl. split; [lia|]. intros t' [Ht'|Ht']%elem_of_app.
      * left. exists t'. by split.
      * apply list_elem_of_singleton in Ht' as ->. right. simpl. lia.
    + (* donetodo *)
      cbn [interactionCreate fst]. rewrite completeTodo_markDone. simpl.
      split; [lia|]. intros t' Ht'. left.
      apply list_elem_of_In, in_map_iff in Ht' as (t & <- & Ht).
      exists t. split; [by apply list_elem_of_In|apply markDone_same_task].
    + (* deltodo *)
      simpl. split; [lia|]. intros t' Ht'. left.
      apply list_elem_of_In, filter_In in Ht' as [Ht' _].
      exists t'. split; [by apply list_elem_of_In|done].
Qed.

Lemma sorted_ids_filter (P : Todo -> bool) (l : list Todo) :
  StronglySorted Z.lt (List.map task_id l) ->
  StronglySorted Z.lt (List.map task_id (List.filter P l)).
Proof.
  induction l as [|x l IH]; [done|]. simpl.
  intros [Hx Hl]%StronglySorted_cons.
  destruct (P x); simpl; [|by apply IH].
  apply StronglySorted_cons. split; [|by apply IH].
  apply Forall_forall. intros i Hi.
  apply list_elem_of_In, in_map_iff in Hi as (t & <- & Ht).
  apply filter_In in Ht as [Ht _].
  rewrite Forall_forall in Hx. apply Hx, list_elem_of_In, in_map. done.
Qed.

Lemma sorted_ids_inj (l : list Todo) t1 t2 :
  StronglySorted Z.lt (List.map task_id l) ->
  t1 ∈ l -> t2 ∈ l -> task_id t1 = task_id t2 -> t1 = t2.
Proof.
  induction l as [|x l IH]; [by intros _ ?%elem_of_nil|]. simpl.
  intros [Hx Hl]%StronglySorted_cons H1 H2 Hid.
  rewrite Forall_forall in Hx.
  assert (forall t, t ∈ l -> task_id x < task_id t) as Hlt.
  { intros t Ht. apply Hx, list_elem_of_In, in_map. by apply list_elem_of_In. }
  apply elem_of_cons in H1 as [->|H1]; apply elem_of_cons in H2 as [->|H2].
  - done.
  - specialize (Hlt _ H2). lia.
  - specialize (Hlt _ H1). lia.
  - by apply IH.
Qed.

Lemma todos_wf_step o st : todos_wf st -> todos_wf (runOp o st).1.
Proof.
  intros (Hs & Hb & Hq).
  assert (forall st' : Store, todos st' = todos st -> todos_seq st' = todos_seq st ->
            todos_wf st') as Hsame.
  { intros st' Ht Hq'. unfold todos_wf. by rewrite Ht, Hq'. }
  destruct o as [now isBot guild u old new|client now|client|guild u c]; cbn [runOp].
  - apply Hsame; apply voiceStateUpdate_todos.
  - apply Hsame; apply periodicCheck_todos.
  - unfold todos_wf. simpl. split; [apply SSorted_nil|]. split; [by apply Forall_nil|done].
  - destruct guild as [g|]; [|by apply Hsame].
    destruct c; try (apply Hsame; by apply interactionCreate_todos).
    + (* addtodo *)
      unfold todos_wf. simpl. rewrite List.map_app. simpl. repeat split; [| |lia].
      * apply StronglySorted_app. repeat split; [|done|repeat constructor].
        intros i1 i2 Hi1 ->%list_elem_of_singleton.
        apply list_elem_of_In, in_map_iff in Hi1 as (t & <- & Ht).
        rewrite Forall_forall in Hb. apply list_elem_of_In, Hb in Ht. lia.
      * apply Forall_app. split.
        -- eapply Forall_impl; [exact Hb|]. simpl. intros; lia.
        -- repeat constructor; simpl; lia.
    + (* donetodo *)
      cbn [interactionCreate fst]. rewrite completeTodo_markDone.
      unfold todos_wf. simpl. repeat split; [| |done].
      * rewrite List.map_map.
        erewrite List.map_ext; [exact Hs|].
        intros t. simpl. unfold markDone. by destruct (_ && _).
      * apply Forall_forall. intros t' Ht'.
        apply list_elem_of_In, in_map_iff in Ht' as (t & <- & Ht).
        rewrite Forall_forall in Hb. apply list_elem_of_In, Hb in Ht.
        unfold markDone. by destruct (_ && _).
    + (* deltodo *)
      unfold todos_wf. simpl. repeat split; [| |done].
      * by apply sorted_ids_filter.
      * apply Forall_forall. intros t Ht.
        apply list_elem_of_In, filter_In in Ht as [Ht _].
        rewrite Forall_forall in Hb. by apply Hb, list_elem_of_In.
Qed.

Lemma todos_wf_run ops st : todos_wf st -> todos_wf (runOps ops st).1.
Proof.
  revert st. induction ops as [|o ops IH]; intros st Hst; [done|].
  rewrite runOps_cons_store. by apply IH, todos_wf_step.
Qed.

Lemma todos_wf_empty : todos_wf emptyStore.
Proof.
  unfold todos_wf, emptyStore. simpl.
  split; [apply SSorted_nil|]. split; [by apply Forall_nil|done].
Qed.

Lemma todos_run ops st :
  todos_seq st <= todos_seq (runOps ops st).1
  /\ forall t', t' ∈ todos (runOps ops st).1 ->
       (exists t, t ∈ todos st /\ same_task t t') \/ todos_seq st < task_id t'.
Proof.
  revert st. induction ops as [|o ops IH]; intros st.
  - simpl. split; [lia|]. intros t' Ht'. left. exists t'. by split.
  - rewrite runOps_cons_store.
    destruct (todos_step o st) as [Hq Hstep].
    destruct (IH (runOp o st).1) as [Hq' Hrun].
    split; [lia|]. intros t' Ht'.
    destruct (Hrun t' Ht') as [(t & Ht & Hsame)|Hnew]; [|right; lia].
    destruct (Hstep t Ht) as [(t0 & Ht0 & Hsame0)|Hnew].
    + left. exists t0. split; [done|]. by eapply same_task_trans.
    + right. destruct Hsame as [<- _]. lia.
Qed.

(** In every store reached from the empty database the to-do table lists
    its rows with strictly increasing ids (so no two rows share an id, and
    [/listtodos] shows tasks in the order they were added), and every id
    lies between 1 and the AUTOINCREMENT counter. *)
Theorem task_ids_increase (ops : list Op) :
  let st := (runOps ops emptyStore).1 in
  StronglySorted Z.lt (List.map task_id (todos st))
  /\ Forall (fun t => 1 <= task_id t <= todos_seq st) (todos st).
Proof.
  intros st. destruct (todos_wf_run ops emptyStore todos_wf_empty) as (Hs & Hb & _).
  by split.
Qed.

(** A task id is never given out twice.  If a task with some id is in the
    table at one moment and a task with the same id is in the table at any
    later moment, it is the same task (same owner, same text), whatever
    deletions, daily resets and additions happened in between. *)
Theorem task_ids_are_never_reused (ops1 ops2 : list Op) (t1 t2 : Todo) :
  t1 ∈ todos (runOps ops1 emptyStore).1 ->
  t2 ∈ todos (runOps (ops1 ++ ops2) emptyStore).1 ->
  task_id t1 = task_id t2 ->
  same_task t1 t2.
Proof.
  intros H1 H2 Hid. rewrite runOps_app_store in H2.
  set (st1 := (runOps ops1 emptyStore).1) in *.
  destruct (todos_wf_run ops1 emptyStore todos_wf_empty) as (Hs & Hb & _).
  fold st1 in Hs, Hb.
  destruct (todos_run ops2 st1) as [_ Hrun].
  destruct (Hrun t2 H2) as [(t & Ht & Hsame)|Hnew].
  - assert (t1 = t) as ->; [|done].
    apply (sorted_ids_inj (todos st1)); try done.
    destruct Hsame as [-> _]. done.
  - rewrite Forall_forall in Hb. specialize (Hb t1 H1). lia.
Qed.

Lemma task_ids_are_never_reused_witness :
  same_task (mkTodo "g" "u" 1 "read" 0) (mkTodo "g" "u" 1 "read" 1).
Proof.
  apply (task_ids_are_never_reused
           [OpCommand (Some "g") "u" (addtodo "read")]
           [OpCommand (Some "g") "v" (addtodo "write");
            OpCommand (Some "g") "u" (donetodo 1);
            OpCommand (Some "g") "v" (deltodo 2);
            OpCommand (Some "g") "v" (addtodo "sleep")]).
  - vm_compute. left.
  - vm_compute. left.
  - reflexivity.
Defined.

(** ** Slash commands *)

Lemma todo_owned_other g u g' u' t :
  (g', u') <> (g, u) -> todo_owned g' u' t = true -> todo_owned g u t = false.
Proof.
  intros Hne [Hg Hu]%todo_owned_spec.
  apply not_true_is_false. intros [Hg' Hu']%todo_owned_spec. congruence.
Qed.

(** [/setgoal hours] with [hours <= 0] is answered with the rejection and
    leaves the store as it is; with [hours > 0] the member's daily goal
    becomes (hours, 0 achieved, no session start) whatever was achieved
    before, and nothing else in the store changes. *)
Theorem setgoal_rejects_or_resets (g u : string) (hours : Q) (st : Store) :
  let res := interactionCreate (Some g) u (setgoal hours) st in
  ((hours <= 0)%Q -> res = (st, [Reply PositiveHours true]))
  /\ ((0 < hours)%Q ->
      getDailyGoal g u res.1 = Some (mkDailyGoal hours 0 None)
      /\ (forall k, k <> (g, u) -> daily_goals res.1 !! k = daily_goals st !! k)
      /\ targets res.1 = targets st
      /\ todos res.1 = todos st /\ todos_seq res.1 = todos_seq st
      /\ res.2 = [Reply (GoalSet hours) true]).
Proof.
  intros res. unfold res. simpl. split.
  - intros Hle. by rewrite (proj2 (Qnonpos_le hours) Hle).
  - intros Hlt.
    destruct (Qnonpos hours) eqn:Hn.
    { apply Qnonpos_le in Hn. by apply Qlt_not_le in Hlt. }
    simpl. unfold getDailyGoal. simpl. rewrite lookup_insert_eq.
    repeat split; try done. intros k Hne. by rewrite lookup_insert_ne.
Qed.

Lemma setgoal_rejects_or_resets_witness :
  getDailyGoal "g" "u"
    ((interactionCreate (Some "g") "u" (setgoal 5) (ex_store 600 0 None 2 (3 # 2))).1)
    = Some (mkDailyGoal 5 0 None)
  /\ interactionCreate (Some "g") "u" (setgoal (-1)) (ex_store 600 0 None 2 (3 # 2))
     = (ex_store 600 0 None 2 (3 # 2), [Reply PositiveHours true]).
Proof.
  split.
  - apply (setgoal_rejects_or_resets "g" "u" 5 (ex_store 600 0 None 2 (3 # 2))).
    reflexivity.
  - apply (setgoal_rejects_or_resets "g" "u" (-1) (ex_store 600 0 None 2 (3 # 2))).
    discriminate.
Defined.

(** Every slash command answers with exactly one reply and has no other
    effect on Discord.  Outside a guild it changes nothing.  Inside a
    guild it leaves the target row, the daily-goal row and the to-do list
    of every other member as they were. *)
Theorem command_touches_only_its_member
    (guild : option string) (u : string) (c : Command) (st : Store) :
  let res := interactionCreate guild u c st in
  (exists m eph, res.2 = [Reply m eph])
  /\ (guild = None -> res.1 = st)
  /\ (forall g g' u', guild = Some g -> (g', u') <> (g, u) ->
        targets res.1 !! (g', u') = targets st !! (g', u')
        /\ daily_goals res.1 !! (g', u') = daily_goals st !! (g', u')
        /\ getTodos g' u' res.1 = getTodos g' u' st).
Proof.
  intros res. unfold res. clear res.
  destruct guild as [g|]; [|simpl; repeat split; eauto; intros; discriminate].
  split.
  { destruct c; simpl; eauto.
    - destruct (js_leb _ _); [simpl; eauto|].
      destruct (times_sixty_finite minutes) as [seconds ->]. simpl. eauto.
    - destruct (getTodos g u st); simpl; eauto.
    - destruct (Qnonpos hours); simpl; eauto. }
  split; [discriminate|].
  intros g0 g' u' [= <-] Hne.
  destruct c; cbn [interactionCreate fst].
  - destruct (js_leb _ _); [done|]. destruct (Math_floor _); [|done]. simpl.
    by rewrite lookup_insert_ne.
  - simpl. by rewrite lookup_delete_ne.
  - repeat split; try done. unfold getTodos. simpl.
    rewrite List.filter_app. simpl.
    destruct (todo_owned g' u' _) eqn:Ho; [|by rewrite app_nil_r].
    apply todo_owned_spec in Ho as [Hg Hu]. simpl in Hg, Hu. congruence.
  - by destruct (getTodos g u st).
  - repeat split; try done. rewrite completeTodo_markDone. unfold getTodos. simpl.
    rewrite filter_map_commute by (intros; apply markDone_owned).
    apply map_id_on. intros t Ht. apply markDone_other.
    apply list_elem_of_In, filter_In in Ht as [_ Ho].
    apply todo_owned_spec in Ho as [Hg Hu]. intros (Hg' & Hu' & _). congruence.
  - repeat split; try done. unfold getTodos. simpl.
    apply filter_filter_absorb. intros t Ho.
    by rewrite (todo_owned_other g u g' u' t).
  - destruct (Qnonpos hours); [done|]. simpl.
    by rewrite lookup_insert_ne.
Qed.

Lemma command_touches_only_its_member_witness :
  getTodos "g" "v"
    ((interactionCreate (Some "g") "u" (deltodo 2) (ex_two_members 600 0 None)).1)
  = getTodos "g" "v" (ex_two_members 600 0 None).
Proof.
  destruct (command_touches_only_its_member (Some "g") "u" (deltodo 2)
              (ex_two_members 600 0 None)) as (_ & _ & H).
  apply (H "g" "g" "v"); [reflexivity|discriminate].
Defined.
